(** * PDF Auto-Renamer (streamlit_app.py): a shallow embedding

    The program is a Streamlit script.  Its pure parts (string
    post-processing of the generated title) are embedded as functions on
    Python strings; its effectful parts (temporary files, the session
    registry, the widgets, the calls into pypdf and into the
    summarization pipeline) are embedded in a state-and-exception monad
    over an explicit [World].  The third-party libraries are parameters:
    an [Env] record for pypdf and the widgets, a [Pipeline] value for the
    summarizer handle that the source passes around. *)

From Stdlib Require Import List NArith ZArith Bool Lia String Ascii.
Import ListNotations.

Set Implicit Arguments.

(** ** Python values *)

(** A Python [str] is a sequence of Unicode code points. *)
Definition char := N.
Definition str := list char.

(** [bytes] objects. *)
Definition bytes := list Byte.byte.

(** String literals of the source, written in ASCII. *)
Definition lit (s : string) : str := map N_of_ascii (list_ascii_of_string s).

Fixpoint str_eqb (a b : str) : bool :=
  match a, b with
  | [], [] => true
  | x :: a', y :: b' => N.eqb x y && str_eqb a' b'
  | _, _ => false
  end.

Definition SPACE : char := 32%N.
Definition PERIOD : char := 46%N.

(** [Py_UNICODE_ISSPACE]: the predicate behind both [str.strip()] with no
    argument and the class [\s] of [re] on [str] patterns. *)
Definition isspace (c : char) : bool :=
  ((9 <=? c) && (c <=? 13) || (28 <=? c) && (c <=? 32)
   || (c =? 133) || (c =? 160) || (c =? 5760)
   || (8192 <=? c) && (c <=? 8202)
   || (c =? 8232) || (c =? 8233) || (c =? 8239) || (c =? 8287)
   || (c =? 12288))%N.

(** [s.lstrip()], [s.rstrip()], [s.strip()]. *)
Fixpoint lstrip (s : str) : str :=
  match s with
  | [] => []
  | c :: s' => if isspace c then lstrip s' else s
  end.

Definition rstrip (s : str) : str := rev (lstrip (rev s)).

Definition strip (s : str) : str := rstrip (lstrip s).

(** [re.sub(r'\s+', ' ', s)]: scanning left to right, every maximal run of
    whitespace is one match and is replaced by one space.  [in_run] tells
    that the previous character belonged to the run being replaced. *)
Fixpoint re_sub_ws_from (in_run : bool) (s : str) : str :=
  match s with
  | [] => []
  | c :: s' =>
      if isspace c
      then (if in_run then re_sub_ws_from true s'
            else SPACE :: re_sub_ws_from true s')
      else c :: re_sub_ws_from false s'
  end.

Definition re_sub_ws (s : str) : str := re_sub_ws_from false s.

(** [s.split(sep)] for a one-character separator: the list of the pieces
    between the occurrences of [sep]. *)
Fixpoint split (sep : char) (s : str) : list str :=
  match s with
  | [] => [[]]
  | c :: s' =>
      if N.eqb c sep then [] :: split sep s'
      else match split sep s' with
           | p :: ps => (c :: p) :: ps
           | [] => [[c]]
           end
  end.

(** Truthiness of the values the script tests with [if]. *)
Definition truthy_str (s : str) : bool :=
  match s with [] => false | _ => true end.

(** [if x: yes else: no] for [x] a string or [None]: only a non-empty
    string is true. *)
Definition if_truthy {A} (x : option str) (yes : str -> A) (no : A) : A :=
  match x with
  | Some s => if truthy_str s then yes s else no
  | None => no
  end.

(** ** Insertion-ordered dictionaries with [str] keys

    A Python [dict] keeps its keys in insertion order and the script
    renders the registry in that order, so the dictionary is an
    association list; assignment to a present key replaces the value in
    place, assignment to an absent key appends. *)
Module Dict.
Section Dict.
Variable V : Type.

Definition t := list (str * V).

Definition empty : t := [].

Fixpoint get (k : str) (d : t) : option V :=
  match d with
  | [] => None
  | (k', v) :: d' => if str_eqb k k' then Some v else get k d'
  end.

(** [k in d] *)
Definition contains (k : str) (d : t) : bool :=
  match get k d with Some _ => true | None => false end.

(** [d[k] = v] *)
Fixpoint set (k : str) (v : V) (d : t) : t :=
  match d with
  | [] => [(k, v)]
  | (k', v') :: d' =>
      if str_eqb k k' then (k', v) :: d' else (k', v') :: set k v d'
  end.

Definition keys (d : t) : list str := map fst d.

(** Number of items stored under [k]. *)
Definition count (k : str) (d : t) : nat :=
  List.length (filter (fun kv => str_eqb k (fst kv)) d).

(** What Python guarantees of every [dict]: no key occurs twice. *)
Definition wf (d : t) : Prop := NoDup (keys d).
End Dict.
Arguments empty {V}.
End Dict.

(** ** Outcomes and the world *)

(** Exceptions deriving from [Exception], with the text [str(e)]. *)
Inductive exn : Type := Exception (msg : str).

Definition exn_msg (e : exn) : str := match e with Exception m => m end.

Inductive result (A : Type) : Type :=
| Ok (a : A)
| Raise (e : exn).
Arguments Ok {A} a.
Arguments Raise {A} e.

(** One value of the registry: the dict literal of [main]. *)
Record Entry : Type := mkEntry {
  content : bytes;
  proposed_name : str;
  original_name : str
}.

(** An [UploadedFile] as the script uses it: [.name] and [.getvalue()]. *)
Record UploadedFile : Type := mkUpload {
  name : str;
  getvalue : bytes
}.

(** What the script shows: the Streamlit calls it makes, in order. *)
Inductive UiEvent : Type :=
| st_title (s : str)
| st_write (s : str)
| st_error (s : str)
| st_warning (s : str)
| st_text_input (key value : str)
| st_download_button (label file_name : str) (data : bytes) (mime : str)
| st_expander (label : str)
| st_experimental_rerun.

(** Calls into the two third-party engines, in order. *)
Inductive Call : Type :=
| call_PdfReader (path : N)
| call_summarizer (text : str) (max_length min_length : N) (do_sample : bool).

(** Temporary files are named by numbers. *)
Definition path := N.

Record World : Type := mkWorld {
  files : list (path * bytes);          (* the temporary directory *)
  processed_files : option (Dict.t Entry);
                                        (* st.session_state.processed_files;
                                           None while the key is absent *)
  ui : list UiEvent;                    (* oldest first *)
  calls : list Call;                    (* oldest first *)
  rng : N                               (* state of the random generator *)
}.

(** ** The monad of the script: state and exceptions *)

Definition M (A : Type) : Type := World -> result A * World.

Definition ret {A} (a : A) : M A := fun w => (Ok a, w).

Definition bind {A B} (m : M A) (k : A -> M B) : M B :=
  fun w => match m w with
           | (Ok a, w') => k a w'
           | (Raise e, w') => (Raise e, w')
           end.

Definition raise {A} (e : exn) : M A := fun w => (Raise e, w).

(** [try: body / except Exception as e: handler e]; what the body did to
    the world before it raised stays done. *)
Definition try_except {A} (body : M A) (handler : exn -> M A) : M A :=
  fun w => match body w with
           | (Ok a, w') => (Ok a, w')
           | (Raise e, w') => handler e w'
           end.

Definition lift {A} (r : result A) : M A := fun w => (r, w).

Declare Scope py_scope.
Delimit Scope py_scope with py.
Notation "x <- m ;; k" := (bind m (fun x => k))
  (at level 61, m at next level, right associativity) : py_scope.
Notation "m ;; k" := (bind m (fun _ => k))
  (at level 61, right associativity) : py_scope.
Local Open Scope py_scope.

(** [for x in xs: body x] *)
Fixpoint for_each {A} (xs : list A) (body : A -> M unit) : M unit :=
  match xs with
  | [] => ret tt
  | x :: xs' => body x ;; for_each xs' body
  end.

(** [xs[0]] *)
Definition index0 {A} (xs : list A) : M A :=
  match xs with
  | x :: _ => ret x
  | [] => raise (Exception (lit "list index out of range"))
  end.

(** [d[k]] *)
Definition getitem {V} (k : str) (d : Dict.t V) : M V :=
  match Dict.get k d with
  | Some v => ret v
  | None => raise (Exception (lit "'" ++ k ++ lit "'"))
  end.

(** Updates of one field of the world. *)
Definition add_ui (ev : UiEvent) (w : World) : World :=
  mkWorld (files w) (processed_files w) (ui w ++ [ev]) (calls w) (rng w).

Definition add_call (c : Call) (w : World) : World :=
  mkWorld (files w) (processed_files w) (ui w) (calls w ++ [c]) (rng w).

Definition with_files (fs : list (path * bytes)) (w : World) : World :=
  mkWorld fs (processed_files w) (ui w) (calls w) (rng w).

Definition with_processed_files (d : Dict.t Entry) (w : World) : World :=
  mkWorld (files w) (Some d) (ui w) (calls w) (rng w).

Definition emit (ev : UiEvent) : M unit := fun w => (Ok tt, add_ui ev w).

Definition record_call (c : Call) : M unit := fun w => (Ok tt, add_call c w).

Definition set_files (fs : list (path * bytes)) : M unit :=
  fun w => (Ok tt, with_files fs w).

Definition set_processed_files (d : Dict.t Entry) : M unit :=
  fun w => (Ok tt, with_processed_files d w).

(** Reading [st.session_state.processed_files]. *)
Definition get_processed_files : M (Dict.t Entry) :=
  fun w => match processed_files w with
           | Some d => (Ok d, w)
           | None =>
               (Raise (Exception
                         (lit "st.session_state has no attribute processed_files")),
                w)
           end.

(** ** Script-control exceptions

    [st.experimental_rerun()] stops the run by raising [RerunException],
    which derives from [BaseException] and not from [Exception]: no
    [except Exception] catches it.  The functions of the script that
    cannot raise it stay in [M]; [main], which can, is a [Script]: it
    ends normally, with an outcome of [M], or by the rerun. *)
Inductive control (A : Type) : Type :=
| Normal (r : result A)
| RerunException.
Arguments Normal {A} r.
Arguments RerunException {A}.

Definition Script (A : Type) : Type := World -> control A * World.

(** A stretch of the script that raises nothing but [Exception]s. *)
Definition run {A} (m : M A) : Script A :=
  fun w => match m w with (r, w') => (Normal r, w') end.

Definition bind_script {A B} (m : Script A) (k : A -> Script B) : Script B :=
  fun w => match m w with
           | (Normal (Ok a), w') => k a w'
           | (Normal (Raise e), w') => (Normal (Raise e), w')
           | (RerunException, w') => (RerunException, w')
           end.

(** [try: body / except Exception as e: handler e] around a stretch that
    may ask for a rerun: the rerun passes through. *)
Definition try_except_script {A} (body : Script A) (handler : exn -> Script A)
  : Script A :=
  fun w => match body w with
           | (Normal (Ok a), w') => (Normal (Ok a), w')
           | (Normal (Raise e), w') => handler e w'
           | (RerunException, w') => (RerunException, w')
           end.

Declare Scope script_scope.
Delimit Scope script_scope with script.
Notation "x <- m ;; k" := (bind_script m (fun x => k))
  (at level 61, m at next level, right associativity) : script_scope.
Notation "m ;; k" := (bind_script m (fun _ => k))
  (at level 61, right associativity) : script_scope.

(** [st.experimental_rerun()] *)
Definition experimental_rerun : Script unit :=
  fun w => (RerunException, add_ui st_experimental_rerun w).

(** ** Widgets without a key

    A widget that gets no [key=] is identified by its type and its
    parameters; a second identical one in the same run is refused with
    [DuplicateWidgetID], a [StreamlitAPIException].  [ui w] is what the
    run has shown so far: Streamlit starts every run on an empty page. *)
Definition same_download_button (label file_name mime : str) (ev : UiEvent)
  : bool :=
  match ev with
  | st_download_button l f _ m =>
      str_eqb l label && str_eqb f file_name && str_eqb m mime
  | _ => false
  end.

(** [st.download_button(label=.., data=.., file_name=.., mime=..)] *)
Definition download_button (label file_name : str) (data : bytes) (mime : str)
  : M unit :=
  fun w => if existsb (same_download_button label file_name mime) (ui w)
           then (Raise (Exception (lit "DuplicateWidgetID")), w)
           else emit (st_download_button label file_name data mime) w.

(** ** The third-party libraries *)

(** pypdf: a page object ([page.extract_text()]) and a reader object
    ([reader.pages]); each access may raise. *)
Record Page : Type := mkPage { extract_text : result str }.

Record Reader : Type := mkReader { pages : result (list Page) }.

(** The summarization pipeline handle.  A call
    [summarizer(text, max_length=.., min_length=.., do_sample=..)] reads
    the state of the random generator and returns a list of dictionaries,
    or raises. *)
Definition Pipeline : Type :=
  str -> N -> N -> bool -> N -> result (list (Dict.t str)).

Record Env : Type := mkEnv {
  PdfReader : bytes -> result Reader;    (* parsing the bytes of a file *)
  load_model : result Pipeline;          (* the cached pipeline(...) *)
  file_uploader : list UploadedFile;     (* what st.file_uploader returns *)
  text_input : str -> str -> str;        (* key, value |-> what the user typed *)
  button : str -> bool                   (* label |-> clicked in this run *)
}.

(** ** Temporary files *)

(** A name that no file of the directory has. *)
Definition fresh_path (fs : list (path * bytes)) : path :=
  N.succ (fold_right N.max 0%N (map fst fs)).

Fixpoint read_file (p : path) (fs : list (path * bytes)) : option bytes :=
  match fs with
  | [] => None
  | (q, b) :: fs' => if N.eqb p q then Some b else read_file p fs'
  end.

Fixpoint remove_file (p : path) (fs : list (path * bytes))
  : list (path * bytes) :=
  match fs with
  | [] => []
  | (q, b) :: fs' =>
      if N.eqb p q then remove_file p fs' else (q, b) :: remove_file p fs'
  end.

Definition file_exists (p : path) (fs : list (path * bytes)) : bool :=
  match read_file p fs with Some _ => true | None => false end.

(** [with NamedTemporaryFile(delete=False, suffix='.pdf') as tmp_file:
       tmp_file.write(data); p = tmp_file.name]
    creates a file of a new name that holds [data] and that closing the
    handle does not delete. *)
Definition NamedTemporaryFile_write (data : bytes) : M path :=
  fun w => let p := fresh_path (files w) in
           (Ok p, with_files ((p, data) :: files w) w).

(** [os.unlink(p)] *)
Definition os_unlink (p : path) : M unit :=
  fun w => if file_exists p (files w)
           then set_files (remove_file p (files w)) w
           else (Raise (Exception (lit "No such file or directory")), w).

(** ** The script *)

Section Script.
Variable env : Env.

(** [PdfReader(p)]: opens the file of that name and parses it. *)
Definition open_PdfReader (p : path) : M Reader :=
  record_call (call_PdfReader p) ;;
  fun w => match read_file p (files w) with
           | Some b => (PdfReader env b, w)
           | None => (Raise (Exception (lit "No such file or directory")), w)
           end.

(** [extract_text_from_pdf], lines 25-44. *)
Definition extract_text_from_pdf (pdf_file : UploadedFile)
  : M (option str) :=
  try_except
    (tmp_file_path <- NamedTemporaryFile_write (getvalue pdf_file) ;;
     reader <- open_PdfReader tmp_file_path ;;
     os_unlink tmp_file_path ;;
     ps <- lift (pages reader) ;;
     if Nat.eqb (List.length ps) 0 then ret None
     else
       first_page <- index0 ps ;;
       text <- lift (extract_text first_page) ;;
       ret (if truthy_str (strip text) then Some text else None))
    (fun e =>
       emit (st_error (lit "Error extracting text from PDF: " ++ exn_msg e)) ;;
       ret None).

(** [get_title_using_ai], lines 46-63. *)
Definition get_title_using_ai (text : str) (summarizer : Pipeline)
  : M (option str) :=
  try_except
    (record_call (call_summarizer (firstn 1024 text) 30 5 false) ;;
     out <- (fun w => (summarizer (firstn 1024 text) 30%N 5%N false (rng w), w)) ;;
     first <- index0 out ;;
     summary <- getitem (lit "summary_text") first ;;
     let title := strip summary in
     let title := re_sub_ws title in
     title <- index0 (split PERIOD title) ;;
     ret (Some title))
    (fun e =>
       emit (st_error (lit "Error using AI for title extraction: " ++ exn_msg e)) ;;
       ret None).

(** The body of the upload loop of [main], lines 98-115. *)
Definition process_file (summarizer : Pipeline) (pdf_file : UploadedFile)
  : M unit :=
  registry <- get_processed_files ;;
  if negb (Dict.contains (name pdf_file) registry) then
    text <- extract_text_from_pdf pdf_file ;;
    if_truthy text
      (fun text =>
         title <- get_title_using_ai text summarizer ;;
         if_truthy title
           (fun title =>
              let new_name := title ++ lit ".pdf" in
              registry <- get_processed_files ;;
              set_processed_files
                (Dict.set (name pdf_file)
                   (mkEntry (getvalue pdf_file) new_name (name pdf_file))
                   registry))
           (emit (st_warning
                    (lit "Could not generate title for " ++ name pdf_file))))
      (emit (st_warning
               (lit "Could not extract text from " ++ name pdf_file)))
  else ret tt.

(** Line 143:
    [st.session_state.processed_files[original_name]['proposed_name'] = new_name].
    The registry's own operation of editing a name. *)
Definition set_proposed_name (k : str) (new_name : str) : M unit :=
  registry <- get_processed_files ;;
  file_info <- getitem k registry ;;
  set_processed_files
    (Dict.set k (mkEntry (content file_info) new_name (original_name file_info))
       registry).

(** The body of the rendering loop of [main], lines 130-156.  The loop
    variable [file_info] is the entry object that the registry holds
    under [k], not a copy: reading it reads the registry. *)
Definition render_row (k : str) : M unit :=
  emit (st_write k) ;;
  registry <- get_processed_files ;;
  file_info <- getitem k registry ;;
  let new_name := text_input env (lit "input_" ++ k) (proposed_name file_info) in
  emit (st_text_input (lit "input_" ++ k) (proposed_name file_info)) ;;
  set_proposed_name k new_name ;;
  registry <- get_processed_files ;;
  file_info <- getitem k registry ;;
  _ <- NamedTemporaryFile_write (content file_info) ;;
  download_button (lit "Download") new_name (content file_info)
    (lit "application/pdf").

(** The text of the [st.write] under the expander, lines 165-171. *)
Definition instructions : str :=
  [10%N] ++ lit "                    1. Upload one or more PDF files"
  ++ [10%N] ++ lit "                    2. Wait for AI processing"
  ++ [10%N] ++ lit "                    3. Edit proposed names if needed"
  ++ [10%N] ++ lit "                    4. Download renamed files"
  ++ [10%N] ++ lit "                    5. Use 'Clear All' to start over"
  ++ [10%N] ++ lit "                    ".

(** The title of line 74: U+1F4C4, a space, and the name. *)
Definition page_title : str := [128196%N] ++ lit " PDF Auto-Renamer".

(** [main], lines 73-175. *)
Definition main : Script unit :=
  (run (emit (st_title page_title)) ;;
   run (emit (st_write (lit "Upload PDFs to automatically rename them based on their content using AI"))) ;;
   run (fun w => match processed_files w with
                 | None => set_processed_files Dict.empty w
                 | Some _ => (Ok tt, w)
                 end) ;;
   try_except_script
     (summarizer <- run (lift (load_model env)) ;;
      let uploaded_files := file_uploader env in
      match uploaded_files with
      | [] => run (ret tt)
      | _ :: _ =>
          run (emit (st_write (lit "### Processing Files"))) ;;
          run (for_each uploaded_files (process_file summarizer)) ;;
          registry <- run get_processed_files ;;
          match registry with
          | [] => run (ret tt)
          | _ :: _ =>
              run (emit (st_write (lit "### Review and Edit Names"))) ;;
              run (emit (st_write (lit "You can edit the proposed names before downloading:"))) ;;
              run (emit (st_write (lit "**Original Name**"))) ;;
              run (emit (st_write (lit "**Proposed Name**"))) ;;
              run (for_each (Dict.keys registry) render_row) ;;
              (if button env (lit "Clear All") then
                 run (set_processed_files Dict.empty) ;;
                 experimental_rerun
               else run (ret tt)) ;;
              run (emit (st_expander (lit "Instructions"))) ;;
              run (emit (st_write instructions))
          end
      end)
     (fun e =>
        run (emit (st_error (lit "An error occurred: " ++ exn_msg e))) ;;
        run (emit (st_error (lit "Please refresh the page and try again")))))%script.
End Script.

(** ** The download link helper *)

Definition QUOTE : char := 34%N.
Definition SLASH : char := 47%N.
Definition EQUALS : char := 61%N.

(** The character of a six-bit value in the standard Base64 alphabet:
    [A-Z], [a-z], [0-9], [+], [/]. *)
Definition b64_char (n : N) : char :=
  (if n <? 26 then 65 + n
   else if n <? 52 then 71 + n
   else if n <? 62 then n - 4
   else if n =? 62 then 43 else 47)%N.

(** [base64.b64encode(data).decode()]: three bytes give four characters;
    one or two bytes left at the end give two or three characters and
    [=] signs up to four.  The encoding is ASCII, so decoding it to a
    [str] gives its characters. *)
Fixpoint b64encode (data : bytes) : str :=
  match data with
  | [] => []
  | [a] =>
      let a := Byte.to_N a in
      [b64_char (a / 4); b64_char ((a mod 4) * 16); EQUALS; EQUALS]
  | [a; b] =>
      let a := Byte.to_N a in
      let b := Byte.to_N b in
      [b64_char (a / 4); b64_char ((a mod 4) * 16 + b / 16);
       b64_char ((b mod 16) * 4); EQUALS]
  | a :: b :: c :: rest =>
      let a := Byte.to_N a in
      let b := Byte.to_N b in
      let c := Byte.to_N c in
      b64_char (a / 4) :: b64_char ((a mod 4) * 16 + b / 16)
      :: b64_char ((b mod 16) * 4 + c / 64) :: b64_char (c mod 64)
      :: b64encode rest
  end%N.

(** [s.rfind(c)]: the highest index of [c] in [s], if there is one. *)
Fixpoint rfind (c : char) (s : str) : option nat :=
  match s with
  | [] => None
  | x :: s' =>
      match rfind c s' with
      | Some i => Some (S i)
      | None => if N.eqb x c then Some 0 else None
      end
  end.

(** [os.path.basename(p)] on POSIX: [i = p.rfind('/') + 1; return p[i:]]. *)
Definition basename (p : str) : str :=
  skipn (match rfind SLASH p with Some i => i + 1 | None => 0 end) p.

(** [with open(bin_file, 'rb') as f: data = f.read()] *)
Definition open_rb_read (bin_file : path) : M bytes :=
  fun w => match read_file bin_file (files w) with
           | Some data => (Ok data, w)
           | None => (Raise (Exception (lit "No such file or directory")), w)
           end.

(** The anchor element of the f-string of line 70. *)
Definition download_anchor (bin_str file_label : str) : str :=
  lit "<a href=" ++ [QUOTE] ++ lit "data:application/octet-stream;base64,"
  ++ bin_str ++ [QUOTE] ++ lit " download=" ++ [QUOTE]
  ++ basename file_label ++ [QUOTE] ++ lit ">Download " ++ file_label
  ++ lit "</a>".

(** [get_binary_file_downloader_html], lines 65-71.  Nothing guards the
    [open]: a missing file raises out of the function. *)
Definition get_binary_file_downloader_html (bin_file : path)
    (file_label : str) : M str :=
  data <- open_rb_read bin_file ;;
  let bin_str := b64encode data in
  let href := download_anchor bin_str file_label in
  ret href.

(** ** A concrete environment

    A small instance of the third-party libraries, on which the script
    can be run by computation. *)

(** No text, only spaces and a line feed. *)
Definition blank_text : str := [SPACE; 10%N; SPACE].

(** A parser that raises on an empty file, reads a one-byte file as a
    document without pages, a two-byte file as a page of blank text, and
    anything longer as a one-page document. *)
Definition demo_PdfReader (b : bytes) : result Reader :=
  match b with
  | [] => Raise (Exception (lit "Cannot read an empty file"))
  | [_] => Ok (mkReader (Ok []))
  | [_; _] => Ok (mkReader (Ok [mkPage (Ok blank_text)]))
  | _ => Ok (mkReader (Ok [mkPage (Ok (lit " Annual report 2024 "))]))
  end.

(** A summarizer that answers with the random state when it samples and
    with a fixed summary when it does not. *)
Definition demo_summarizer : Pipeline :=
  fun text max_length min_length do_sample seed =>
    if do_sample then Ok [[(lit "summary_text", [seed])]]
    else Ok [[(lit "summary_text",
               lit "  Annual   report  2024. It was a good year. ")]].

(** A summarizer whose summaries start with a period. *)
Definition terse_summarizer : Pipeline :=
  fun _ _ _ _ _ => Ok [[(lit "summary_text", lit " . nothing to say")]].

(** A summarizer whose call fails. *)
Definition failing_summarizer : Pipeline :=
  fun _ _ _ _ _ => Raise (Exception (lit "CUDA out of memory")).

Definition pdf_bytes : bytes := [Byte.x25; Byte.x50; Byte.x44; Byte.x46].

Definition report_pdf : UploadedFile := mkUpload (lit "scan0001.pdf") pdf_bytes.
Definition empty_pdf : UploadedFile := mkUpload (lit "empty.pdf") [].
Definition no_pages_pdf : UploadedFile := mkUpload (lit "nopages.pdf") [Byte.x25].
Definition blank_pdf : UploadedFile :=
  mkUpload (lit "blank.pdf") [Byte.x25; Byte.x50].

Definition demo_env : Env :=
  mkEnv demo_PdfReader (Ok demo_summarizer) [report_pdf; report_pdf]
        (fun key value => lit "renamed.pdf") (fun _ => false).

(** A session that has just started. *)
Definition new_world : World := mkWorld [] None [] [] 0%N.

(** A session with an empty registry. *)
Definition empty_session : World := mkWorld [] (Some Dict.empty) [] [] 0%N.

(** The entry that the report gets, and a session that lists it. *)
Definition report_entry : Entry :=
  mkEntry pdf_bytes (lit "Annual report 2024.pdf") (lit "scan0001.pdf").

Definition listing_session : World :=
  mkWorld [] (Some [(lit "scan0001.pdf", report_entry)]) [] [] 0%N.

(** The report uploaded a second time under another name: the same
    bytes, hence the same title and the same proposed name. *)
Definition copy_entry : Entry :=
  mkEntry pdf_bytes (lit "Annual report 2024.pdf") (lit "copy.pdf").

Definition twin_session : World :=
  mkWorld [] (Some [(lit "scan0001.pdf", report_entry);
                    (lit "copy.pdf", copy_entry)]) [] [] 0%N.


(** A user who leaves every proposed name as it is shown. *)
Definition idle_env : Env :=
  mkEnv demo_PdfReader (Ok demo_summarizer) [report_pdf]
        (fun key value => value) (fun _ => false).

(** The uploader is empty. *)
Definition no_upload_env : Env :=
  mkEnv demo_PdfReader (Ok demo_summarizer) []
        (fun key value => value) (fun _ => false).

(** The model cannot be loaded. *)
Definition no_model_env : Env :=
  mkEnv demo_PdfReader (Raise (Exception (lit "no network"))) [report_pdf]
        (fun key value => value) (fun _ => false).

(** ** Vocabulary of the properties *)

(** Two whitespace characters in a row somewhere in [s]. *)
Fixpoint adjacent_ws (s : str) : bool :=
  match s with
  | [] => false
  | c :: s' =>
      match s' with
      | c' :: _ => isspace c && isspace c'
      | [] => false
      end || adjacent_ws s'
  end.

(** [s] has a period. *)
Definition has_period (s : str) : bool := existsb (N.eqb PERIOD) s.

(** [s] is trimmed: [s.strip() == s]. *)
Definition trimmed (s : str) : Prop := strip s = s.

(** The document that the parser makes of the bytes has no page, or its
    first page yields a text that is empty or all whitespace. *)
Definition no_text (env : Env) (b : bytes) : bool :=
  match PdfReader env b with
  | Ok reader =>
      match pages reader with
      | Ok [] => true
      | Ok (p :: _) =>
          match extract_text p with
          | Ok t => negb (truthy_str (strip t))
          | Raise _ => false
          end
      | Raise _ => false
      end
  | Raise _ => false
  end.

(** The document parses and its first page yields the text [t]. *)
Definition first_page_text (env : Env) (b : bytes) (t : str) : Prop :=
  exists reader p ps,
    PdfReader env b = Ok reader /\ pages reader = Ok (p :: ps)
    /\ extract_text p = Ok t.

(** The pipeline answers the excerpt of [text] with [summary], whatever
    the random state. *)
Definition summarizes (summarizer : Pipeline) (text summary : str) : Prop :=
  forall seed, exists d ds,
    summarizer (firstn 1024 text) 30%N 5%N false seed = Ok (d :: ds)
    /\ Dict.get (lit "summary_text") d = Some summary.

(** A summary that, trimmed and collapsed, is empty or begins with a
    period. *)
Definition degenerate_summary (summary : str) : bool :=
  match re_sub_ws (strip summary) with
  | [] => true
  | c :: _ => N.eqb c PERIOD
  end.

(** The download buttons among some events: file name and data. *)
Definition downloads (evs : list UiEvent) : list (str * bytes) :=
  flat_map (fun ev => match ev with
                      | st_download_button _ file_name data _ => [(file_name, data)]
                      | _ => []
                      end) evs.

(** What the user types into the row of [k] when it shows [value]. *)
Definition typed (env : Env) (k value : str) : str :=
  text_input env (lit "input_" ++ k) value.

(** The world once lines 78-79 have given the session its registry. *)
Definition with_session (w : World) : World :=
  match processed_files w with
  | Some _ => w
  | None => with_processed_files Dict.empty w
  end.

(** The registry behind a value of [st.session_state.processed_files]. *)
Definition reg_of (o : option (Dict.t Entry)) : Dict.t Entry :=
  match o with Some d => d | None => [] end.

(** A computation relates the registry it finds to the one it leaves,
    whether it returns or raises. *)
Definition respects {A} (Q : option (Dict.t Entry) -> option (Dict.t Entry) -> Prop)
    (m : M A) : Prop :=
  forall w, Q (processed_files w) (processed_files (snd (m w))).

(** The same for a stretch that may end by a rerun. *)
Definition respects_script {A}
    (Q : option (Dict.t Entry) -> option (Dict.t Entry) -> Prop)
    (m : Script A) : Prop :=
  forall w, Q (processed_files w) (processed_files (snd (m w))).

(** The file name that the row of [k] offers for download. *)
Definition row_name (env : Env) (reg : Dict.t Entry) (k : str) : str :=
  match Dict.get k reg with
  | Some e => typed env k (proposed_name e)
  | None => []
  end.

(** The rows of [ks] offer names that are all different, and none of
    them is on a download button that the page already has. *)
Definition fresh_names (env : Env) (reg : Dict.t Entry) (ks : list str)
    (w : World) : Prop :=
  NoDup (map (row_name env reg) ks)
  /\ forall k, In k ks ->
       ~ In (row_name env reg k) (map fst (downloads (ui w))).

(** Every entry is stored under its original name. *)
Definition keyed (reg : Dict.t Entry) : Prop :=
  forall k e, Dict.get k reg = Some e -> original_name e = k.

Definition registry_ok (reg : Dict.t Entry) : Prop :=
  Dict.wf reg /\ keyed reg.

(** Every entry of [reg] is still in [reg'] with its content and its
    original name. *)
Definition entries_kept (reg reg' : Dict.t Entry) : Prop :=
  forall k e, Dict.get k reg = Some e ->
    exists e', Dict.get k reg' = Some e'
               /\ content e' = content e
               /\ original_name e' = original_name e.

(** Every entry of [reg] is in [reg'] as it is. *)
Definition entries_unchanged (reg reg' : Dict.t Entry) : Prop :=
  forall k e, Dict.get k reg = Some e -> Dict.get k reg' = Some e.

(** The six-bit value of a Base64 character. *)
Definition b64_value (c : char) : option N :=
  (if (65 <=? c) && (c <=? 90) then Some (c - 65)
   else if (97 <=? c) && (c <=? 122) then Some (c - 71)
   else if (48 <=? c) && (c <=? 57) then Some (c + 4)
   else if c =? 43 then Some 62
   else if c =? 47 then Some 63
   else None)%N.

(** A character that a Base64 text may hold. *)
Definition b64_alphabet (c : char) : bool :=
  match b64_value c with Some _ => true | None => N.eqb c EQUALS end.

(** The bytes of some numbers, if they all fit. *)
Fixpoint bytes_of (ns : list N) : option bytes :=
  match ns with
  | [] => Some []
  | n :: ns' =>
      match Byte.of_N n, bytes_of ns' with
      | Some b, Some bs => Some (b :: bs)
      | _, _ => None
      end
  end.

(** Reading a Base64 text back (RFC 4648, padding required): the
    reference against which [b64encode] is checked. *)
Fixpoint b64decode (s : str) : option bytes :=
  match s with
  | [] => Some []
  | c1 :: c2 :: c3 :: c4 :: rest =>
      match b64_value c1, b64_value c2 with
      | Some s1, Some s2 =>
          if N.eqb c3 EQUALS then
            match rest with
            | [] => if N.eqb c4 EQUALS then bytes_of [s1 * 4 + s2 / 16]
                    else None
            | _ => None
            end
          else
            match b64_value c3 with
            | Some s3 =>
                if N.eqb c4 EQUALS then
                  match rest with
                  | [] => bytes_of [s1 * 4 + s2 / 16; (s2 mod 16) * 16 + s3 / 4]
                  | _ => None
                  end
                else
                  match b64_value c4, b64decode rest with
                  | Some s4, Some bs =>
                      match bytes_of [s1 * 4 + s2 / 16;
                                      (s2 mod 16) * 16 + s3 / 4;
                                      (s3 mod 4) * 64 + s4] with
                      | Some abc => Some (abc ++ bs)
                      | None => None
                      end
                  | _, _ => None
                  end
            | None => None
            end
      | _, _ => None
      end
  | _ => None
  end%N.

(** The registry of a world, empty while the session has none. *)
Definition registry (w : World) : Dict.t Entry :=
  match processed_files w with Some d => d | None => [] end.

(** * Properties *)

Unset Implicit Arguments.

(** ** Strings *)

Lemma str_eqb_eq (a b : str) : str_eqb a b = true <-> a = b.
Proof.
  revert b; induction a as [|x a IH]; intros [|y b]; simpl;
    try (split; [discriminate | congruence]); try tauto.
  rewrite andb_true_iff, N.eqb_eq, IH. split.
  - intros [-> ->]; reflexivity.
  - intros H; injection H; auto.
Qed.

Lemma str_eqb_refl (s : str) : str_eqb s s = true.
Proof. apply str_eqb_eq; reflexivity. Qed.

Lemma str_eqb_neq (a b : str) : str_eqb a b = false <-> a <> b.
Proof.
  rewrite <- str_eqb_eq. destruct (str_eqb a b); split; congruence.
Qed.

(** After a whitespace run has been replaced, the scan resumes on a
    character that is not whitespace; and nowhere does the result hold two
    whitespace characters in a row. *)
Lemma re_sub_ws_from_spec (s : str) :
  forall in_run,
    adjacent_ws (re_sub_ws_from in_run s) = false
    /\ (in_run = true ->
        match re_sub_ws_from in_run s with
        | c :: _ => isspace c = false
        | [] => True
        end).
Proof.
  induction s as [|c s IH]; intros in_run; simpl.
  - split; trivial.
  - destruct (isspace c) eqn:Hc.
    + destruct in_run.
      * apply IH.
      * split; [|discriminate].
        destruct (IH true) as [Hadj Hhd]. specialize (Hhd eq_refl).
        simpl. rewrite Hadj.
        destruct (re_sub_ws_from true s) as [|c' r]; [reflexivity|].
        rewrite Hhd. reflexivity.
    + destruct (IH false) as [Hadj _]. split.
      * simpl. rewrite Hadj, Hc.
        destruct (re_sub_ws_from false s); reflexivity.
      * intros _. exact Hc.
Qed.

Lemma re_sub_ws_no_adjacent (s : str) : adjacent_ws (re_sub_ws s) = false.
Proof. apply (re_sub_ws_from_spec s false). Qed.

Lemma adjacent_ws_prefix (p r : str) :
  adjacent_ws (p ++ r) = false -> adjacent_ws p = false.
Proof.
  induction p as [|c p IH]; simpl; [reflexivity|].
  intros H. apply orb_false_iff in H as [H1 H2].
  rewrite (IH H2), orb_false_r.
  destruct p; [reflexivity | exact H1].
Qed.

(** [split] never returns the empty list, and its first piece is what
    comes before the first separator. *)
Lemma split_first (sep : char) (s : str) :
  exists p ps rest,
    split sep s = p :: ps /\ s = p ++ rest /\ existsb (N.eqb sep) p = false
    /\ (rest = [] \/ exists rest', rest = sep :: rest').
Proof.
  induction s as [|c s (p & ps & rest & Hs & Heq & Hp & Hrest)]; simpl.
  - exists [], [], []. auto.
  - destruct (N.eqb c sep) eqn:Hc.
    + apply N.eqb_eq in Hc; subst c.
      exists [], (split sep s), (sep :: s). repeat split; eauto.
    + rewrite Hs. exists (c :: p), ps, rest. simpl.
      rewrite N.eqb_sym, Hc, Hp, Heq. auto.
Qed.

Lemma split_first_of_degenerate (s : str) :
  match s with [] => true | c :: _ => N.eqb c PERIOD end = true ->
  exists ps, split PERIOD s = [] :: ps.
Proof.
  destruct s as [|c s]; simpl; intros H.
  - eauto.
  - rewrite H. eauto.
Qed.

(** ** Temporary files *)

Lemma fresh_path_above (fs : list (path * bytes)) (p : path) :
  In p (map fst fs) -> (p < fresh_path fs)%N.
Proof.
  unfold fresh_path. induction fs as [|[q b] fs IH]; simpl; [tauto|].
  intros [-> | H]; [|specialize (IH H)]; lia.
Qed.

Lemma read_file_None (p : path) (fs : list (path * bytes)) :
  ~ In p (map fst fs) -> read_file p fs = None.
Proof.
  induction fs as [|[q b] fs IH]; simpl; [reflexivity|].
  intros H. destruct (N.eqb_spec p q) as [->|_]; [tauto|].
  apply IH. tauto.
Qed.

(** The name that [NamedTemporaryFile] picks is new. *)
Lemma read_file_fresh (fs : list (path * bytes)) :
  read_file (fresh_path fs) fs = None.
Proof.
  apply read_file_None. intros H. apply fresh_path_above in H. lia.
Qed.

Lemma remove_file_absent (p : path) (fs : list (path * bytes)) :
  read_file p fs = None -> remove_file p fs = fs.
Proof.
  induction fs as [|[q b] fs IH]; simpl; [reflexivity|].
  destruct (N.eqb p q); [discriminate|]. intros H. rewrite (IH H). reflexivity.
Qed.

(** ** The text extractor *)

(** What [extract_text_from_pdf] does, case by case.  The temporary file
    is unlinked as soon as the reader has been built, and only then. *)
Lemma extract_text_from_pdf_run (env : Env) (pdf_file : UploadedFile)
    (w : World) :
  let tmp := fresh_path (files w) in
  let opened := add_call (call_PdfReader tmp) w in
  let failed (e : exn) (w' : World) :=
    (Ok (@None str),
     add_ui (st_error (lit "Error extracting text from PDF: " ++ exn_msg e)) w')
  in
  extract_text_from_pdf env pdf_file w =
  match PdfReader env (getvalue pdf_file) with
  | Raise e =>
      failed e (add_call (call_PdfReader tmp)
                  (with_files ((tmp, getvalue pdf_file) :: files w) w))
  | Ok reader =>
      match pages reader with
      | Raise e => failed e opened
      | Ok [] => (Ok None, opened)
      | Ok (p :: _) =>
          match extract_text p with
          | Raise e => failed e opened
          | Ok t => (Ok (if truthy_str (strip t) then Some t else None), opened)
          end
      end
  end.
Proof.
  intros tmp opened failed.
  unfold extract_text_from_pdf, try_except, bind, NamedTemporaryFile_write,
    open_PdfReader, bind, record_call, os_unlink, file_exists, lift.
  cbn [files add_call with_files read_file]. fold tmp.
  rewrite N.eqb_refl.
  destruct (PdfReader env (getvalue pdf_file)) as [reader|e]; [|reflexivity].
  cbn [files add_call with_files read_file remove_file set_files].
  rewrite N.eqb_refl.
  rewrite (remove_file_absent tmp (files w) (read_file_fresh (files w))).
  unfold set_files.
  assert (Hw : with_files (files w)
                 (add_call (call_PdfReader tmp)
                    (with_files ((tmp, getvalue pdf_file) :: files w) w))
               = opened) by (destruct w; reflexivity).
  rewrite Hw.
  destruct (pages reader) as [[|p ps]|e]; try reflexivity.
  cbn. destruct (extract_text p); reflexivity.
Qed.

(** X5.  Whenever the reader could be built, the temporary directory is as it
    was before the call: the file has been created and deleted. *)
Lemma temp_file_unlinked_when_parsed (env : Env) (pdf_file : UploadedFile)
    (w : World) (reader : Reader) :
  PdfReader env (getvalue pdf_file) = Ok reader ->
  files (snd (extract_text_from_pdf env pdf_file w)) = files w.
Proof.
  intros H. rewrite extract_text_from_pdf_run, H.
  destruct (pages reader) as [[|p ps]|e]; try reflexivity.
  destruct (extract_text p); reflexivity.
Qed.

(** C1 (fails on the code).  When the parser rejects the uploaded bytes,
    [extract_text_from_pdf] returns [None] and the temporary file that it
    wrote, which did not exist before the call, is still in the temporary
    directory with the uploaded bytes in it: [os.unlink] sits after the
    construction of the reader and is skipped by the exception. *)
Theorem temp_file_left_on_parse_error (env : Env) (pdf_file : UploadedFile)
    (w : World) (e : exn) :
  PdfReader env (getvalue pdf_file) = Raise e ->
  exists w',
    extract_text_from_pdf env pdf_file w = (Ok None, w')
    /\ read_file (fresh_path (files w)) (files w) = None
    /\ read_file (fresh_path (files w)) (files w') = Some (getvalue pdf_file)
    /\ files w' = (fresh_path (files w), getvalue pdf_file) :: files w.
Proof.
  intros H. rewrite extract_text_from_pdf_run, H.
  eexists; split; [reflexivity|]. cbn [files add_ui add_call with_files read_file].
  rewrite N.eqb_refl. auto using read_file_fresh.
Qed.

Lemma temp_file_left_on_parse_error_witness :
  PdfReader demo_env (getvalue empty_pdf)
  = Raise (Exception (lit "Cannot read an empty file"))
  /\ exists w',
      extract_text_from_pdf demo_env empty_pdf empty_session = (Ok None, w')
      /\ files w' = [(1%N, [])].
Proof.
  split; [reflexivity|].
  destruct (temp_file_left_on_parse_error demo_env empty_pdf empty_session
              (Exception (lit "Cannot read an empty file")) eq_refl)
    as (w' & Hrun & _ & _ & Hfiles).
  exists w'. split; [exact Hrun | exact Hfiles].
Defined.

(** C2 as stated is false: for a page whose text begins and ends with a
    space, what the run returns is that text, spaces included, and not a
    trimmed string. *)
Lemma extracted_text_not_trimmed_counterexample :
  ~ (forall (env : Env) (pdf_file : UploadedFile) (w : World) (t : str),
        first_page_text env (getvalue pdf_file) t ->
        strip t <> [] ->
        exists r w',
          extract_text_from_pdf env pdf_file w = (Ok (Some r), w')
          /\ r <> [] /\ trimmed r).
Proof.
  intros claim.
  destruct (claim demo_env report_pdf empty_session (lit " Annual report 2024 "))
    as (r & w' & Hrun & _ & Htrim).
  - exists (mkReader (Ok [mkPage (Ok (lit " Annual report 2024 "))])),
      (mkPage (Ok (lit " Annual report 2024 "))), [].
    repeat split.
  - vm_compute. discriminate.
  - assert (Hr : r = lit " Annual report 2024 ").
    { vm_compute in Hrun. injection Hrun as Hr _. symmetry. exact Hr. }
    rewrite Hr in Htrim. vm_compute in Htrim. discriminate Htrim.
Qed.

(** C2 (amended).  For a document that parses and whose first page yields
    a text with some character that is not whitespace,
    [extract_text_from_pdf] returns that text unchanged: it is not empty,
    and it is not trimmed (what is tested is its trimmed copy). *)
Theorem extract_text_returns_page_text (env : Env) (pdf_file : UploadedFile)
    (w : World) (t : str) :
  first_page_text env (getvalue pdf_file) t ->
  strip t <> [] ->
  exists w',
    extract_text_from_pdf env pdf_file w = (Ok (Some t), w') /\ t <> [].
Proof.
  intros (reader & p & ps & Hread & Hpages & Htext) Hstrip.
  rewrite extract_text_from_pdf_run, Hread, Hpages, Htext.
  destruct (strip t) eqn:Hs; [congruence|]. cbn.
  eexists; split; [reflexivity|]. intros ->. discriminate.
Qed.

Lemma extract_text_returns_page_text_witness :
  exists w',
    extract_text_from_pdf demo_env report_pdf empty_session
    = (Ok (Some (lit " Annual report 2024 ")), w')
    /\ lit " Annual report 2024 " <> [].
Proof.
  apply (extract_text_returns_page_text demo_env report_pdf empty_session).
  - exists (mkReader (Ok [mkPage (Ok (lit " Annual report 2024 "))])),
      (mkPage (Ok (lit " Annual report 2024 "))), [].
    repeat split.
  - vm_compute. discriminate.
Defined.

(** C4.  [extract_text_from_pdf] always returns, never raises, whatever
    the parser does with the bytes; and it returns [None] for a document
    without pages and for one whose first page has an empty or
    all-whitespace text. *)
Theorem extract_text_total_and_none_without_text (env : Env)
    (pdf_file : UploadedFile) (w : World) :
  exists r w',
    extract_text_from_pdf env pdf_file w = (Ok r, w')
    /\ (no_text env (getvalue pdf_file) = true -> r = None).
Proof.
  rewrite extract_text_from_pdf_run. unfold no_text.
  destruct (PdfReader env (getvalue pdf_file)) as [reader|e].
  - destruct (pages reader) as [[|p ps]|e].
    + eauto.
    + destruct (extract_text p) as [t|e].
      * do 2 eexists; split; [reflexivity|].
        destruct (truthy_str (strip t)); [discriminate | reflexivity].
      * do 2 eexists; split; [reflexivity | discriminate].
    + do 2 eexists; split; [reflexivity | discriminate].
  - do 2 eexists; split; [reflexivity | discriminate].
Qed.

Lemma extract_text_total_and_none_without_text_witness :
  no_text demo_env (getvalue blank_pdf) = true
  /\ no_text demo_env (getvalue no_pages_pdf) = true
  /\ fst (extract_text_from_pdf demo_env blank_pdf empty_session) = Ok None
  /\ fst (extract_text_from_pdf demo_env no_pages_pdf empty_session) = Ok None.
Proof.
  split; [reflexivity|]. split; [reflexivity|]. split.
  - destruct (extract_text_total_and_none_without_text demo_env blank_pdf
                empty_session) as (r & w' & Hrun & Hnone).
    rewrite Hrun. simpl. rewrite Hnone; reflexivity.
  - destruct (extract_text_total_and_none_without_text demo_env no_pages_pdf
                empty_session) as (r & w' & Hrun & Hnone).
    rewrite Hrun. simpl. rewrite Hnone; reflexivity.
Defined.

(** ** The title generator *)

(** What [get_title_using_ai] does, case by case. *)
Lemma get_title_using_ai_run (text : str) (summarizer : Pipeline) (w : World) :
  let asked := add_call (call_summarizer (firstn 1024 text) 30 5 false) w in
  let failed (e : exn) :=
    (Ok (@None str),
     add_ui (st_error (lit "Error using AI for title extraction: " ++ exn_msg e))
       asked)
  in
  get_title_using_ai text summarizer w =
  match summarizer (firstn 1024 text) 30%N 5%N false (rng w) with
  | Raise e => failed e
  | Ok [] => failed (Exception (lit "list index out of range"))
  | Ok (d :: _) =>
      match Dict.get (lit "summary_text") d with
      | None => failed (Exception (lit "'summary_text'"))
      | Some summary =>
          (Ok (Some (hd [] (split PERIOD (re_sub_ws (strip summary))))), asked)
      end
  end.
Proof.
  intros asked failed.
  unfold get_title_using_ai, try_except, bind, record_call, getitem.
  fold asked. replace (rng asked) with (rng w) by reflexivity.
  destruct (summarizer _ _ _ _ _) as [[|d ds]|e]; try reflexivity.
  cbn [index0 ret].
  destruct (Dict.get (lit "summary_text") d) as [summary|]; [|reflexivity].
  cbn [ret].
  destruct (split_first PERIOD (re_sub_ws (strip summary)))
    as (p & ps & rest & -> & _).
  reflexivity.
Qed.

(** C3.  A title that [get_title_using_ai] returns has no two whitespace
    characters in a row and no period, whatever the text and whatever the
    summarizer answered. *)
Theorem title_without_adjacent_whitespace_or_period (text : str)
    (summarizer : Pipeline) (w w' : World) (title : str) :
  get_title_using_ai text summarizer w = (Ok (Some title), w') ->
  adjacent_ws title = false /\ has_period title = false.
Proof.
  rewrite get_title_using_ai_run.
  destruct (summarizer _ _ _ _ _) as [[|d ds]|e]; try discriminate.
  destruct (Dict.get (lit "summary_text") d) as [summary|]; [|discriminate].
  intros H; injection H as <- _.
  destruct (split_first PERIOD (re_sub_ws (strip summary)))
    as (p & ps & rest & Hsplit & Heq & Hp & _).
  rewrite Hsplit. cbn [hd]. split; [|exact Hp].
  apply adjacent_ws_prefix with (r := rest). rewrite <- Heq.
  apply re_sub_ws_no_adjacent.
Qed.

Lemma title_without_adjacent_whitespace_or_period_witness :
  get_title_using_ai (lit "Annual report") demo_summarizer empty_session
  = (Ok (Some (lit "Annual report 2024")),
     add_call (call_summarizer (lit "Annual report") 30 5 false) empty_session)
  /\ adjacent_ws (lit "Annual report 2024") = false
  /\ has_period (lit "Annual report 2024") = false.
Proof.
  split; [reflexivity|].
  apply (title_without_adjacent_whitespace_or_period
           (lit "Annual report") demo_summarizer empty_session
           (add_call (call_summarizer (lit "Annual report") 30 5 false)
              empty_session)).
  reflexivity.
Defined.

(** ** Dictionaries *)

Section DictFacts.
Variable V : Type.
Implicit Types (d : Dict.t V) (k : str) (v : V).

Lemma get_In_keys d k v : Dict.get k d = Some v -> In k (Dict.keys d).
Proof.
  induction d as [|[k' v'] d IH]; simpl; [discriminate|].
  destruct (str_eqb k k') eqn:Hk.
  - apply str_eqb_eq in Hk. auto.
  - auto.
Qed.

Lemma In_keys_get d k : In k (Dict.keys d) -> exists v, Dict.get k d = Some v.
Proof.
  induction d as [|[k' v'] d IH]; simpl; [tauto|].
  destruct (str_eqb k k') eqn:Hk; [eauto|].
  apply str_eqb_neq in Hk. intros [H | H]; [congruence | auto].
Qed.

Lemma get_set_same d k v v0 :
  Dict.get k d = Some v0 -> Dict.get k (Dict.set k v d) = Some v.
Proof.
  induction d as [|[k' v'] d IH]; simpl; [discriminate|].
  destruct (str_eqb k k') eqn:Hk; simpl; rewrite Hk; auto.
Qed.

Lemma get_set_other d k k' v :
  k <> k' -> Dict.get k (Dict.set k' v d) = Dict.get k d.
Proof.
  intros Hne. induction d as [|[k0 v0] d IH]; simpl.
  - apply str_eqb_neq in Hne. rewrite Hne. reflexivity.
  - destruct (str_eqb k' k0) eqn:Hk; simpl.
    + apply str_eqb_eq in Hk; subst k0.
      apply str_eqb_neq in Hne. rewrite Hne. reflexivity.
    + rewrite IH. reflexivity.
Qed.

Lemma keys_set_present d k v v0 :
  Dict.get k d = Some v0 -> Dict.keys (Dict.set k v d) = Dict.keys d.
Proof.
  induction d as [|[k' v'] d IH]; simpl; [discriminate|].
  destruct (str_eqb k k') eqn:Hk; simpl; [reflexivity|].
  intros H. rewrite (IH H). reflexivity.
Qed.

Lemma keys_set_absent d k v :
  Dict.get k d = None -> Dict.keys (Dict.set k v d) = Dict.keys d ++ [k].
Proof.
  induction d as [|[k' v'] d IH]; simpl; [reflexivity|].
  destruct (str_eqb k k') eqn:Hk; simpl; [discriminate|].
  intros H. rewrite (IH H). reflexivity.
Qed.

(** Assignment keeps the keys distinct. *)
Lemma wf_set d k v : Dict.wf d -> Dict.wf (Dict.set k v d).
Proof.
  unfold Dict.wf. intros Hwf.
  destruct (Dict.get k d) as [v0|] eqn:Hget.
  - rewrite (keys_set_present d k v v0 Hget). exact Hwf.
  - rewrite (keys_set_absent d k v Hget).
    apply NoDup_app.
    + exact Hwf.
    + constructor; [simpl; tauto | constructor].
    + intros x Hx [<- | []]. apply In_keys_get in Hx as [v0 Hv0]. congruence.
Qed.

Lemma count_absent d k : ~ In k (Dict.keys d) -> Dict.count k d = 0.
Proof.
  unfold Dict.count. induction d as [|[k' v'] d IH]; simpl; [reflexivity|].
  intros H. destruct (str_eqb k k') eqn:Hk.
  - apply str_eqb_eq in Hk. subst k'. tauto.
  - apply IH. tauto.
Qed.

(** In a dictionary a key that is present is present once. *)
Lemma count_present d k :
  Dict.wf d -> Dict.contains k d = true -> Dict.count k d = 1.
Proof.
  unfold Dict.wf, Dict.contains, Dict.count.
  induction d as [|[k' v'] d IH]; simpl; [discriminate|].
  intros Hwf. inversion Hwf as [|? ? Hnotin Hwf']; subst.
  destruct (str_eqb k k') eqn:Hk; simpl.
  - intros _. apply str_eqb_eq in Hk; subst k'.
    f_equal. apply (count_absent d k Hnotin).
  - auto.
Qed.
End DictFacts.

(** ** The controller: the upload loop *)

(** Neither engine touches the registry. *)
Lemma extract_text_from_pdf_frame (env : Env) (pdf_file : UploadedFile)
    (w : World) :
  processed_files (snd (extract_text_from_pdf env pdf_file w))
  = processed_files w.
Proof.
  rewrite extract_text_from_pdf_run.
  destruct (PdfReader env (getvalue pdf_file)) as [reader|e]; [|reflexivity].
  destruct (pages reader) as [[|p ps]|e]; try reflexivity.
  destruct (extract_text p); reflexivity.
Qed.

Lemma get_title_using_ai_frame (text : str) (summarizer : Pipeline) (w : World) :
  processed_files (snd (get_title_using_ai text summarizer w))
  = processed_files w.
Proof.
  rewrite get_title_using_ai_run.
  destruct (summarizer _ _ _ _ _) as [[|d ds]|e]; try reflexivity.
  destruct (Dict.get (lit "summary_text") d); reflexivity.
Qed.

(** A text that the extractor returns is true in the sense of [if text:]. *)
Lemma extract_text_from_pdf_truthy (env : Env) (pdf_file : UploadedFile)
    (w w' : World) (t : str) :
  extract_text_from_pdf env pdf_file w = (Ok (Some t), w') ->
  truthy_str t = true.
Proof.
  rewrite extract_text_from_pdf_run.
  destruct (PdfReader env (getvalue pdf_file)) as [reader|e]; [|discriminate].
  destruct (pages reader) as [[|p ps]|e]; try discriminate.
  destruct (extract_text p) as [t'|e]; [|discriminate].
  destruct (truthy_str (strip t')) eqn:Hs; [|discriminate].
  intros H; injection H as <- _.
  destruct t'; [discriminate Hs | reflexivity].
Qed.

(** X4.  When a file is registered, the entry holds the uploaded bytes, the
    title with the extension, and the name of the upload. *)
Lemma process_file_registers (env : Env) (summarizer : Pipeline)
    (pdf_file : UploadedFile) (w w1 w2 : World) (reg : Dict.t Entry)
    (text title : str) :
  processed_files w = Some reg ->
  Dict.contains (name pdf_file) reg = false ->
  extract_text_from_pdf env pdf_file w = (Ok (Some text), w1) ->
  get_title_using_ai text summarizer w1 = (Ok (Some title), w2) ->
  title <> [] ->
  process_file env summarizer pdf_file w
  = (Ok tt,
     with_processed_files
       (Dict.set (name pdf_file)
          (mkEntry (getvalue pdf_file) (title ++ lit ".pdf") (name pdf_file))
          reg) w2).
Proof.
  intros Hreg Hnew Hx Ht Hne.
  pose proof (extract_text_from_pdf_truthy _ _ _ _ _ Hx) as Htruthy.
  pose proof (extract_text_from_pdf_frame env pdf_file w) as F1.
  pose proof (get_title_using_ai_frame text summarizer w1) as F2.
  rewrite Hx in F1. rewrite Ht in F2. simpl in F1, F2.
  unfold process_file, bind, get_processed_files.
  rewrite Hreg, Hnew. cbn [negb]. rewrite Hx.
  unfold if_truthy. rewrite Htruthy, Ht.
  destruct title as [|c title]; [congruence|]. cbn [truthy_str].
  rewrite F2, F1, Hreg. reflexivity.
Qed.

(** C5.  A file whose name is already a key of the registry is skipped:
    the pass over it returns with the world exactly as it was, so the
    registry still has one entry under that name, the one it had, and no
    call to the parser or to the summarizer has been added. *)
Theorem registered_name_is_not_reprocessed (env : Env) (summarizer : Pipeline)
    (pdf_file : UploadedFile) (w : World) (reg : Dict.t Entry) (e : Entry) :
  processed_files w = Some reg ->
  Dict.wf reg ->
  Dict.get (name pdf_file) reg = Some e ->
  exists w',
    process_file env summarizer pdf_file w = (Ok tt, w')
    /\ processed_files w' = Some reg
    /\ Dict.count (name pdf_file) (registry w') = 1
    /\ Dict.get (name pdf_file) (registry w') = Some e
    /\ calls w' = calls w
    /\ w' = w.
Proof.
  intros Hreg Hwf Hget. exists w.
  assert (Hin : Dict.contains (name pdf_file) reg = true)
    by (unfold Dict.contains; rewrite Hget; reflexivity).
  unfold process_file, bind, get_processed_files, registry.
  rewrite Hreg, Hin. cbn [negb].
  repeat split; auto using count_present.
Qed.

Lemma registered_name_is_not_reprocessed_witness :
  processed_files
    (snd (process_file demo_env demo_summarizer report_pdf empty_session))
  = processed_files listing_session
  /\ process_file demo_env demo_summarizer report_pdf listing_session
     = (Ok tt, listing_session)
  /\ Dict.count (name report_pdf) (registry listing_session) = 1.
Proof.
  split; [reflexivity|].
  assert (Hwf : Dict.wf [(lit "scan0001.pdf", report_entry)])
    by (constructor; [simpl; tauto | constructor]).
  destruct (registered_name_is_not_reprocessed demo_env demo_summarizer
              report_pdf listing_session [(lit "scan0001.pdf", report_entry)]
              report_entry eq_refl Hwf eq_refl)
    as (w' & Hrun & _ & Hcount & _ & _ & Hw).
  rewrite Hw in Hrun, Hcount. split; [exact Hrun | exact Hcount].
Defined.

(** C7.  If the extractor returns no text, or the title generator returns
    no title, the pass over the file leaves the registry as it was. *)
Theorem failed_file_is_not_registered (env : Env) (summarizer : Pipeline)
    (pdf_file : UploadedFile) (w : World) :
  fst (extract_text_from_pdf env pdf_file w) = Ok None
  \/ (exists text w1,
        extract_text_from_pdf env pdf_file w = (Ok (Some text), w1)
        /\ fst (get_title_using_ai text summarizer w1) = Ok None) ->
  processed_files (snd (process_file env summarizer pdf_file w))
  = processed_files w.
Proof.
  intros H.
  pose proof (extract_text_from_pdf_frame env pdf_file w) as F1.
  unfold process_file, bind, get_processed_files.
  destruct (processed_files w) as [reg|] eqn:Hreg; [|exact Hreg].
  destruct (Dict.contains (name pdf_file) reg); cbn [negb]; [exact Hreg|].
  destruct (extract_text_from_pdf env pdf_file w) as [[[t|]|ex] w1] eqn:Hx;
    simpl in F1; unfold if_truthy; try exact F1.
  destruct (truthy_str t); [|exact F1].
  destruct H as [H | (text & w1' & Heq & H)]; [discriminate H|].
  injection Heq as <- <-.
  pose proof (get_title_using_ai_frame t summarizer w1) as F2.
  destruct (get_title_using_ai t summarizer w1) as [[[title|]|ex] w2];
    simpl in F2, H; try discriminate H.
  simpl. congruence.
Qed.

Lemma failed_file_is_not_registered_witness :
  fst (extract_text_from_pdf demo_env empty_pdf empty_session) = Ok None
  /\ processed_files
       (snd (process_file demo_env demo_summarizer empty_pdf empty_session))
     = Some []
  /\ processed_files
       (snd (process_file demo_env failing_summarizer report_pdf empty_session))
     = Some [].
Proof.
  split; [reflexivity|]. split.
  - apply (failed_file_is_not_registered demo_env demo_summarizer empty_pdf
             empty_session).
    left. reflexivity.
  - apply (failed_file_is_not_registered demo_env failing_summarizer report_pdf
             empty_session).
    right. do 2 eexists. split; reflexivity.
Defined.

(** C10.  When the summary, trimmed and with its whitespace collapsed, is
    empty or begins with a period, [get_title_using_ai] returns the empty
    string and reports no error; the controller then warns that it could
    not generate a title and leaves the registry as it was. *)
Theorem degenerate_summary_excludes_file (env : Env) (summarizer : Pipeline)
    (pdf_file : UploadedFile) (w w1 : World) (reg : Dict.t Entry)
    (text summary : str) :
  processed_files w = Some reg ->
  Dict.contains (name pdf_file) reg = false ->
  extract_text_from_pdf env pdf_file w = (Ok (Some text), w1) ->
  summarizes summarizer text summary ->
  degenerate_summary summary = true ->
  let asked := add_call (call_summarizer (firstn 1024 text) 30 5 false) w1 in
  let warned :=
    add_ui (st_warning (lit "Could not generate title for " ++ name pdf_file))
      asked in
  get_title_using_ai text summarizer w1 = (Ok (Some []), asked)
  /\ ui asked = ui w1
  /\ process_file env summarizer pdf_file w = (Ok tt, warned)
  /\ processed_files warned = Some reg.
Proof.
  intros Hreg Hnew Hx Hsum Hdeg asked warned.
  assert (Ht : get_title_using_ai text summarizer w1 = (Ok (Some []), asked)).
  { rewrite get_title_using_ai_run.
    destruct (Hsum (rng w1)) as (d & ds & -> & ->).
    destruct (split_first_of_degenerate _ Hdeg) as [ps ->]. reflexivity. }
  pose proof (extract_text_from_pdf_truthy _ _ _ _ _ Hx) as Htruthy.
  pose proof (extract_text_from_pdf_frame env pdf_file w) as F1.
  rewrite Hx in F1. simpl in F1.
  repeat split.
  - exact Ht.
  - unfold process_file, bind, get_processed_files.
    rewrite Hreg, Hnew. cbn [negb]. rewrite Hx.
    unfold if_truthy. rewrite Htruthy, Ht. reflexivity.
  - cbn. congruence.
Qed.

Lemma degenerate_summary_excludes_file_witness :
  degenerate_summary (lit " . nothing to say") = true
  /\ fst (get_title_using_ai (lit " Annual report 2024 ") terse_summarizer
            (add_call (call_PdfReader 1) empty_session))
     = Ok (Some [])
  /\ processed_files
       (snd (process_file demo_env terse_summarizer report_pdf empty_session))
     = Some [].
Proof.
  split; [reflexivity|].
  destruct (degenerate_summary_excludes_file demo_env terse_summarizer
              report_pdf empty_session
              (add_call (call_PdfReader 1) empty_session) []
              (lit " Annual report 2024 ") (lit " . nothing to say")
              eq_refl eq_refl eq_refl
              (fun seed =>
                 ex_intro _ [(lit "summary_text", lit " . nothing to say")]
                   (ex_intro _ [] (conj eq_refl eq_refl)))
              eq_refl)
    as (Ht & _ & Hrun & Hreg).
  split.
  - rewrite Ht. reflexivity.
  - rewrite Hrun. exact Hreg.
Defined.

(** ** The registry: editing a name *)

Lemma set_proposed_name_run (k new_name : str) (w : World)
    (reg : Dict.t Entry) (e : Entry) :
  processed_files w = Some reg ->
  Dict.get k reg = Some e ->
  set_proposed_name k new_name w
  = (Ok tt,
     with_processed_files
       (Dict.set k (mkEntry (content e) new_name (original_name e)) reg) w).
Proof.
  intros Hreg Hget.
  unfold set_proposed_name, bind, get_processed_files, getitem.
  rewrite Hreg, Hget. reflexivity.
Qed.

(** An edit of any key, whether it succeeds or raises, leaves under [k] an
    entry with the content and the original name that were there. *)
Lemma set_proposed_name_frame (k k' new_name : str) (w : World)
    (reg : Dict.t Entry) (e : Entry) :
  processed_files w = Some reg ->
  Dict.get k reg = Some e ->
  exists reg1 e1,
    processed_files (snd (set_proposed_name k' new_name w)) = Some reg1
    /\ Dict.get k reg1 = Some e1
    /\ content e1 = content e /\ original_name e1 = original_name e.
Proof.
  intros Hreg Hget.
  destruct (Dict.get k' reg) as [e0|] eqn:Hget'.
  - rewrite (set_proposed_name_run k' new_name w reg e0 Hreg Hget'). cbn.
    destruct (str_eqb k k') eqn:Hk.
    + apply str_eqb_eq in Hk; subst k'.
      assert (e0 = e) by congruence; subst e0.
      do 2 eexists. split; [reflexivity|].
      split; [apply (get_set_same _ _ _ _ e Hget) | split; reflexivity].
    + apply str_eqb_neq in Hk.
      do 2 eexists. split; [reflexivity|].
      rewrite (get_set_other _ _ _ _ _ Hk). eauto.
  - unfold set_proposed_name, bind, get_processed_files, getitem.
    rewrite Hreg, Hget'. cbn. exists reg, e. auto.
Qed.

Lemma edits_frame (edits : list (str * str)) :
  forall (k : str) (w : World) (reg : Dict.t Entry) (e : Entry),
    processed_files w = Some reg ->
    Dict.get k reg = Some e ->
    exists reg1 e1,
      processed_files
        (snd (for_each edits
                (fun kn => set_proposed_name (fst kn) (snd kn)) w))
      = Some reg1
      /\ Dict.get k reg1 = Some e1
      /\ content e1 = content e /\ original_name e1 = original_name e.
Proof.
  induction edits as [|[k' n'] edits IH]; intros k w reg e Hreg Hget.
  - cbn. exists reg, e. auto.
  - destruct (set_proposed_name_frame k k' n' w reg e Hreg Hget)
      as (reg1 & e1 & Hreg1 & Hget1 & Hc1 & Ho1).
    cbn [for_each fst snd]. unfold bind at 1.
    destruct (set_proposed_name k' n' w) as [[[]|ex] w1]; cbn [snd] in *.
    + destruct (IH k w1 reg1 e1 Hreg1 Hget1) as (reg2 & e2 & H2 & Hg2 & Hc2 & Ho2).
      exists reg2, e2. repeat split; congruence.
    + exists reg1, e1. auto.
Qed.

(** C6.  After any sequence of edits of proposed names, the entry under a
    registered key still has its content and its original name; and an
    edit of that key then succeeds and leaves an entry that reads back the
    new name, with the same content and original name. *)
Theorem edit_law (edits : list (str * str)) (k new_name : str) (w : World)
    (reg : Dict.t Entry) (e : Entry) :
  processed_files w = Some reg ->
  Dict.get k reg = Some e ->
  let w1 := snd (for_each edits
                   (fun kn => set_proposed_name (fst kn) (snd kn)) w) in
  exists e1 w2,
    Dict.get k (registry w1) = Some e1
    /\ content e1 = content e /\ original_name e1 = original_name e
    /\ set_proposed_name k new_name w1 = (Ok tt, w2)
    /\ Dict.get k (registry w2)
       = Some (mkEntry (content e) new_name (original_name e)).
Proof.
  intros Hreg Hget w1.
  destruct (edits_frame edits k w reg e Hreg Hget)
    as (reg1 & e1 & Hreg1 & Hget1 & Hc & Ho).
  fold w1 in Hreg1.
  exists e1. eexists. unfold registry. rewrite Hreg1.
  repeat split; try assumption.
  - apply (set_proposed_name_run k new_name w1 reg1 e1 Hreg1 Hget1).
  - cbn. rewrite Hc, Ho. apply (get_set_same _ _ _ _ e1 Hget1).
Qed.

Lemma edit_law_witness :
  exists e1 w2,
    Dict.get (lit "scan0001.pdf")
      (registry
         (snd (for_each [(lit "scan0001.pdf", lit "a.pdf");
                         (lit "scan0001.pdf", lit "b.pdf")]
                 (fun kn => set_proposed_name (fst kn) (snd kn))
                 listing_session)))
    = Some e1
    /\ content e1 = pdf_bytes /\ original_name e1 = lit "scan0001.pdf"
    /\ set_proposed_name (lit "scan0001.pdf") (lit "final.pdf")
         (snd (for_each [(lit "scan0001.pdf", lit "a.pdf");
                         (lit "scan0001.pdf", lit "b.pdf")]
                 (fun kn => set_proposed_name (fst kn) (snd kn))
                 listing_session))
       = (Ok tt, w2)
    /\ Dict.get (lit "scan0001.pdf") (registry w2)
       = Some (mkEntry pdf_bytes (lit "final.pdf") (lit "scan0001.pdf")).
Proof.
  apply (edit_law [(lit "scan0001.pdf", lit "a.pdf");
                   (lit "scan0001.pdf", lit "b.pdf")]
           (lit "scan0001.pdf") (lit "final.pdf") listing_session
           [(lit "scan0001.pdf", report_entry)] report_entry eq_refl eq_refl).
Defined.

(** ** The controller: the rendering loop *)

Lemma downloads_app (a b : list UiEvent) :
  downloads (a ++ b) = downloads a ++ downloads b.
Proof. apply flat_map_app. Qed.

(** A file name that no download button of the page carries can be given
    to a new one. *)
Lemma not_shown_no_duplicate (label file_name mime : str)
    (evs : list UiEvent) :
  ~ In file_name (map fst (downloads evs)) ->
  existsb (same_download_button label file_name mime) evs = false.
Proof.
  induction evs as [|ev evs IH]; [reflexivity|].
  change (ev :: evs) with ([ev] ++ evs).
  rewrite downloads_app, map_app, existsb_app. intros H.
  rewrite IH by (intros Hin; apply H; apply in_or_app; right; exact Hin).
  rewrite orb_false_r. destruct ev; try reflexivity. cbn.
  assert (Hne : file_name0 <> file_name)
    by (intros ->; apply H; apply in_or_app; left; cbn; auto).
  apply str_eqb_neq in Hne. rewrite Hne, andb_false_r. reflexivity.
Qed.

(** One row, up to the download button: the name that the user typed is
    stored and a copy of the content is written to a temporary file that
    stays. *)
Lemma render_row_steps (env : Env) (k : str) (w : World) (reg : Dict.t Entry)
    (e : Entry) :
  processed_files w = Some reg ->
  Dict.get k reg = Some e ->
  let new_name := typed env k (proposed_name e) in
  let shown :=
    add_ui (st_text_input (lit "input_" ++ k) (proposed_name e))
      (add_ui (st_write k) w) in
  let edited :=
    with_processed_files
      (Dict.set k (mkEntry (content e) new_name (original_name e)) reg) shown in
  render_row env k w
  = download_button (lit "Download") new_name (content e)
      (lit "application/pdf")
      (with_files ((fresh_path (files w), content e) :: files w) edited).
Proof.
  intros Hreg Hget new_name shown edited.
  unfold render_row, bind at 1 2 3 4 5, emit, get_processed_files, getitem.
  cbn [processed_files add_ui]. rewrite Hreg, Hget. cbn [ret].
  fold shown.
  rewrite (set_proposed_name_run k _ shown reg e Hreg Hget).
  fold (typed env k (proposed_name e)). fold new_name. fold edited.
  unfold bind, get_processed_files, getitem, NamedTemporaryFile_write.
  cbn [processed_files edited with_processed_files].
  rewrite (get_set_same _ _ _ _ e Hget). reflexivity.
Qed.

(** One row whose file name is not yet on the page: the download button
    gets the typed name and the content of the entry. *)
Lemma render_row_run (env : Env) (k : str) (w : World) (reg : Dict.t Entry)
    (e : Entry) :
  processed_files w = Some reg ->
  Dict.get k reg = Some e ->
  ~ In (typed env k (proposed_name e)) (map fst (downloads (ui w))) ->
  let new_name := typed env k (proposed_name e) in
  let shown :=
    add_ui (st_text_input (lit "input_" ++ k) (proposed_name e))
      (add_ui (st_write k) w) in
  let edited :=
    with_processed_files
      (Dict.set k (mkEntry (content e) new_name (original_name e)) reg) shown in
  render_row env k w
  = (Ok tt,
     add_ui (st_download_button (lit "Download") new_name (content e)
               (lit "application/pdf"))
       (with_files ((fresh_path (files w), content e) :: files w) edited)).
Proof.
  intros Hreg Hget Hfree new_name shown edited.
  rewrite (render_row_steps env k w reg e Hreg Hget). cbv zeta.
  unfold download_button.
  cbn [ui with_files with_processed_files add_ui].
  rewrite !existsb_app. cbn [existsb same_download_button orb].
  rewrite (not_shown_no_duplicate _ _ _ _ Hfree). reflexivity.
Qed.

(** One row whose download button is already on the page: the name is
    stored, the temporary file written, and [DuplicateWidgetID] raised. *)
Lemma render_row_duplicate (env : Env) (k : str) (w : World)
    (reg : Dict.t Entry) (e : Entry) :
  processed_files w = Some reg ->
  Dict.get k reg = Some e ->
  existsb (same_download_button (lit "Download")
             (typed env k (proposed_name e)) (lit "application/pdf")) (ui w)
  = true ->
  exists w',
    render_row env k w = (Raise (Exception (lit "DuplicateWidgetID")), w')
    /\ ui w' = ui w ++ [st_write k;
                        st_text_input (lit "input_" ++ k) (proposed_name e)].
Proof.
  intros Hreg Hget Hdup.
  rewrite (render_row_steps env k w reg e Hreg Hget). cbv zeta.
  unfold download_button.
  cbn [ui with_files with_processed_files add_ui].
  rewrite !existsb_app, Hdup. cbn [orb].
  eexists. split; [reflexivity|].
  cbn [ui with_files with_processed_files add_ui].
  rewrite <- app_assoc. reflexivity.
Qed.

(** The loop over distinct registered keys whose rows offer fresh
    names. *)
Lemma render_rows_run (env : Env) (ks : list str) :
  forall (w : World) (reg : Dict.t Entry),
    processed_files w = Some reg ->
    NoDup ks ->
    (forall k, In k ks -> exists e, Dict.get k reg = Some e) ->
    fresh_names env reg ks w ->
    exists w' reg' evs new,
      for_each ks (render_row env) w = (Ok tt, w')
      /\ processed_files w' = Some reg'
      /\ ui w' = ui w ++ evs
      /\ (forall k, ~ In k ks -> Dict.get k reg' = Dict.get k reg)
      /\ (forall k e, In k ks -> Dict.get k reg = Some e ->
            Dict.get k reg'
            = Some (mkEntry (content e) (typed env k (proposed_name e))
                      (original_name e)))
      /\ downloads evs
         = map (fun k => match Dict.get k reg with
                         | Some e => (typed env k (proposed_name e), content e)
                         | None => ([], [])
                         end) ks
      /\ calls w' = calls w
      /\ files w' = new ++ files w
      /\ map snd new
         = rev (map (fun k => match Dict.get k reg with
                              | Some e => content e
                              | None => []
                              end) ks)
      /\ Dict.keys reg' = Dict.keys reg.
Proof.
  induction ks as [|k ks IH]; intros w reg Hreg Hnd Hall [Hnames Hfree].
  - exists w, reg, [], []. cbn. rewrite app_nil_r. repeat split; auto.
    intros k e [].
  - inversion Hnd as [|? ? Hk Hnd']; subst.
    destruct (Hall k (or_introl eq_refl)) as [e Hget].
    assert (Hname : row_name env reg k = typed env k (proposed_name e))
      by (unfold row_name; rewrite Hget; reflexivity).
    assert (Hfresh : ~ In (typed env k (proposed_name e))
                         (map fst (downloads (ui w))))
      by (rewrite <- Hname; apply Hfree; left; reflexivity).
    pose proof (render_row_run env k w reg e Hreg Hget Hfresh) as Hrow.
    cbv zeta in Hrow.
    set (e' := mkEntry (content e) (typed env k (proposed_name e))
                 (original_name e)) in *.
    set (w1 := add_ui _ (with_files _ _)) in Hrow.
    assert (Hreg1 : processed_files w1 = Some (Dict.set k e' reg))
      by reflexivity.
    assert (Hother : forall k', k' <> k ->
                Dict.get k' (Dict.set k e' reg) = Dict.get k' reg)
      by (intros k' Hne; apply get_set_other; exact Hne).
    assert (Hrows : forall k', In k' ks ->
                row_name env (Dict.set k e' reg) k' = row_name env reg k').
    { intros k' Hk'. unfold row_name.
      rewrite Hother by (intros ->; tauto). reflexivity. }
    assert (Hui1 : ui w1
                   = ui w ++ [st_write k;
                              st_text_input (lit "input_" ++ k) (proposed_name e);
                              st_download_button (lit "Download")
                                (typed env k (proposed_name e)) (content e)
                                (lit "application/pdf")]).
    { unfold w1. cbn [ui add_ui with_files with_processed_files].
      rewrite <- !app_assoc. reflexivity. }
    cbn [map] in Hnames. rewrite Hname in Hnames.
    inversion Hnames as [|? ? Hhead Htail]; subst.
    destruct (IH w1 (Dict.set k e' reg) Hreg1 Hnd')
      as (w' & reg' & evs & new & Hrun & Hreg' & Hui & Hout & Hin & Hdl
          & Hcalls & Hfiles & Hnew & Hkeys).
    { intros k' Hk'. rewrite Hother by (intros ->; tauto).
      apply Hall. right. exact Hk'. }
    { split.
      - rewrite (map_ext_in _ _ ks Hrows). exact Htail.
      - intros k' Hk'. rewrite (Hrows k' Hk'), Hui1, downloads_app, map_app.
        intros Hshown. apply in_app_or in Hshown as [Hold | Hnew'].
        + apply (Hfree k'); [right; exact Hk' | exact Hold].
        + cbn in Hnew'. destruct Hnew' as [Heq | []].
          apply Hhead. rewrite Heq. apply in_map. exact Hk'. }
    exists w', reg'. eexists.
    exists (new ++ [(fresh_path (files w), content e)]).
    split; [cbn [for_each]; unfold bind; rewrite Hrow; exact Hrun|].
    split; [exact Hreg'|].
    split; [rewrite Hui, Hui1, <- app_assoc; reflexivity|].
    split.
    { intros k' Hk'. rewrite Hout by (simpl in Hk'; tauto).
      apply Hother. intros ->. apply Hk'. left. reflexivity. }
    split.
    { intros k' e0 [<- | Hk'] Hget0.
      - rewrite (Hout k Hk), (get_set_same _ _ _ _ e Hget).
        assert (e0 = e) by congruence. subst e0. reflexivity.
      - assert (Hne : k' <> k) by (intros ->; tauto).
        apply Hin; [exact Hk'|]. rewrite Hother by exact Hne. exact Hget0. }
    split.
    { rewrite !downloads_app, Hdl. cbn [downloads flat_map map app].
      rewrite Hget. f_equal.
      apply map_ext_in. intros k' Hk'.
      rewrite Hother by (intros ->; tauto). reflexivity. }
    split; [rewrite Hcalls; reflexivity|].
    split; [rewrite Hfiles, <- app_assoc; reflexivity|].
    split.
    { rewrite map_app, Hnew. cbn [map rev snd]. rewrite Hget. f_equal.
      f_equal. apply map_ext_in. intros k' Hk'.
      rewrite Hother by (intros ->; tauto). reflexivity. }
    rewrite Hkeys. apply (keys_set_present _ _ _ _ e). exact Hget.
Qed.

(** C8 (fails on the code).  The download button is the one widget of the
    row that gets no [key=].  When two rows offer the same bytes under the
    same file name, the rendering loop shows the download button of the
    first and stops at the second with [DuplicateWidgetID]: the second
    entry, though registered, gets no download action. *)
Theorem same_name_twice_aborts_rendering (env : Env) (w : World)
    (k1 k2 : str) (e1 e2 : Entry) :
  processed_files w = Some [(k1, e1); (k2, e2)] ->
  k1 <> k2 ->
  downloads (ui w) = [] ->
  typed env k1 (proposed_name e1) = typed env k2 (proposed_name e2) ->
  content e1 = content e2 ->
  exists w',
    for_each (Dict.keys [(k1, e1); (k2, e2)]) (render_row env) w
    = (Raise (Exception (lit "DuplicateWidgetID")), w')
    /\ downloads (ui w')
       = [(typed env k1 (proposed_name e1), content e1)].
Proof.
  intros Hreg Hne Hnone Hsame _.
  assert (Hne' : str_eqb k2 k1 = false)
    by (apply str_eqb_neq; congruence).
  assert (Hget1 : Dict.get k1 [(k1, e1); (k2, e2)] = Some e1)
    by (cbn; rewrite str_eqb_refl; reflexivity).
  assert (Hfresh : ~ In (typed env k1 (proposed_name e1))
                       (map fst (downloads (ui w))))
    by (rewrite Hnone; intros []).
  pose proof (render_row_run env k1 w _ e1 Hreg Hget1 Hfresh) as Hrow1.
  cbv zeta in Hrow1.
  set (w1 := add_ui _ (with_files _ _)) in Hrow1.
  assert (Hui1 : ui w1
                 = ui w ++ [st_write k1;
                            st_text_input (lit "input_" ++ k1) (proposed_name e1);
                            st_download_button (lit "Download")
                              (typed env k1 (proposed_name e1)) (content e1)
                              (lit "application/pdf")]).
  { unfold w1. cbn [ui add_ui with_files with_processed_files].
    rewrite <- !app_assoc. reflexivity. }
  destruct (render_row_duplicate env k2 w1
              (Dict.set k1 (mkEntry (content e1)
                              (typed env k1 (proposed_name e1))
                              (original_name e1))
                 [(k1, e1); (k2, e2)]) e2)
    as (w2 & Hrow2 & Hui2).
  - reflexivity.
  - cbn. rewrite str_eqb_refl. cbn. rewrite Hne', str_eqb_refl. reflexivity.
  - rewrite Hui1, existsb_app. apply orb_true_iff. right.
    cbn [existsb same_download_button]. rewrite <- Hsame, !str_eqb_refl.
    reflexivity.
  - exists w2. split.
    + cbn [Dict.keys map fst for_each]. unfold bind at 1. rewrite Hrow1.
      unfold bind at 1. rewrite Hrow2. reflexivity.
    + rewrite Hui2, Hui1, !downloads_app, Hnone. reflexivity.
Qed.

Lemma same_name_twice_aborts_rendering_witness :
  exists w',
    for_each (Dict.keys [(lit "scan0001.pdf", report_entry);
                         (lit "copy.pdf", copy_entry)])
      (render_row idle_env) twin_session
    = (Raise (Exception (lit "DuplicateWidgetID")), w')
    /\ downloads (ui w') = [(lit "Annual report 2024.pdf", pdf_bytes)].
Proof.
  apply (same_name_twice_aborts_rendering idle_env twin_session
           (lit "scan0001.pdf") (lit "copy.pdf") report_entry copy_entry).
  - reflexivity.
  - discriminate.
  - reflexivity.
  - reflexivity.
  - reflexivity.
Defined.

(** X24.  In a rendering pass over a registry whose rows offer file names
    that are all different and not yet on the page, the download buttons
    that the pass shows are, row by row in the order of the registry, the
    proposed name that the entry has after the pass (which is what the user
    typed in this very pass) together with the content of the entry; and
    the content of every entry is what it was before the pass, that is,
    the bytes stored when the file was registered. *)
Theorem download_gives_current_name_and_content (env : Env) (w : World)
    (reg : Dict.t Entry) :
  processed_files w = Some reg ->
  Dict.wf reg ->
  fresh_names env reg (Dict.keys reg) w ->
  exists w' evs,
    for_each (Dict.keys reg) (render_row env) w = (Ok tt, w')
    /\ ui w' = ui w ++ evs
    /\ downloads evs
       = map (fun k => match Dict.get k (registry w') with
                       | Some e' => (proposed_name e', content e')
                       | None => ([], [])
                       end) (Dict.keys reg)
    /\ (forall k e, Dict.get k reg = Some e ->
          exists e',
            Dict.get k (registry w') = Some e'
            /\ proposed_name e' = typed env k (proposed_name e)
            /\ content e' = content e
            /\ original_name e' = original_name e).
Proof.
  intros Hreg Hwf Hfresh.
  destruct (render_rows_run env (Dict.keys reg) w reg Hreg Hwf)
    as (w' & reg' & evs & new & Hrun & Hreg' & Hui & _ & Hin & Hdl & _);
    [|exact Hfresh|].
  { intros k Hk. apply In_keys_get. exact Hk. }
  exists w', evs. unfold registry. rewrite Hreg'.
  split; [exact Hrun|]. split; [exact Hui|]. split.
  - rewrite Hdl. apply map_ext_in. intros k Hk.
    destruct (In_keys_get _ _ _ Hk) as [e He].
    rewrite He, (Hin k e Hk He). reflexivity.
  - intros k e He. eexists. split.
    + apply (Hin k e (get_In_keys _ _ _ _ He) He).
    + repeat split.
Qed.

Lemma download_gives_current_name_and_content_witness :
  exists w' evs,
    for_each (Dict.keys [(lit "scan0001.pdf", report_entry)])
      (render_row demo_env) listing_session = (Ok tt, w')
    /\ ui w' = ui listing_session ++ evs
    /\ downloads evs
       = map (fun k => match Dict.get k (registry w') with
                       | Some e' => (proposed_name e', content e')
                       | None => ([], [])
                       end) (Dict.keys [(lit "scan0001.pdf", report_entry)])
    /\ (forall k e, Dict.get k [(lit "scan0001.pdf", report_entry)] = Some e ->
          exists e',
            Dict.get k (registry w') = Some e'
            /\ proposed_name e' = typed demo_env k (proposed_name e)
            /\ content e' = content e
            /\ original_name e' = original_name e).
Proof.
  apply (download_gives_current_name_and_content demo_env listing_session
           [(lit "scan0001.pdf", report_entry)] eq_refl).
  - constructor; [simpl; tauto | constructor].
  - split.
    + constructor; [simpl; tauto | constructor].
    + intros k _ [].
Defined.

(** ** The whole script on the concrete environment *)

(** Two uploads of one name in a batch: one entry, one call to each
    engine, and a download of the uploaded bytes under the typed name. *)
Example main_on_demo :
  let w := snd (main demo_env new_world) in
  processed_files w
  = Some [(lit "scan0001.pdf",
           mkEntry pdf_bytes (lit "renamed.pdf") (lit "scan0001.pdf"))]
  /\ calls w = [call_PdfReader 1;
                call_summarizer (lit " Annual report 2024 ") 30 5 false]
  /\ downloads (ui w) = [(lit "renamed.pdf", pdf_bytes)].
Proof. vm_compute. repeat split. Qed.

(** The same report registered under two names and left unedited: the
    second download button is refused, the top-level handler shows the
    error, only the first row has a download, and both entries stay
    registered. *)
Example main_on_twins :
  let w := snd (main idle_env twin_session) in
  fst (main idle_env twin_session) = Normal (Ok tt)
  /\ downloads (ui w) = [(lit "Annual report 2024.pdf", pdf_bytes)]
  /\ firstn 2 (rev (ui w))
     = [st_error (lit "Please refresh the page and try again");
        st_error (lit "An error occurred: DuplicateWidgetID")]
  /\ processed_files w = processed_files twin_session.
Proof. vm_compute. repeat split. Qed.

(** The upload loop keeps the keys of the registry distinct. *)
Lemma process_file_wf (env : Env) (summarizer : Pipeline)
    (pdf_file : UploadedFile) (w : World) :
  Dict.wf (registry w) ->
  Dict.wf (registry (snd (process_file env summarizer pdf_file w))).
Proof.
  intros Hwf.
  pose proof (extract_text_from_pdf_frame env pdf_file w) as F1.
  unfold process_file, bind, get_processed_files.
  destruct (processed_files w) as [reg|] eqn:Hreg; [|exact Hwf].
  destruct (Dict.contains (name pdf_file) reg); cbn [negb]; [exact Hwf|].
  assert (Hkeep : forall w', processed_files w' = Some reg ->
                             Dict.wf (registry w')).
  { intros w' Hw'. unfold registry in *. rewrite Hw'. rewrite Hreg in Hwf.
    exact Hwf. }
  destruct (extract_text_from_pdf env pdf_file w) as [[[t|]|ex] w1];
    simpl in F1; unfold if_truthy; cbn [snd emit]; auto.
  destruct (truthy_str t); cbn [snd emit]; auto.
  pose proof (get_title_using_ai_frame t summarizer w1) as F2.
  destruct (get_title_using_ai t summarizer w1) as [[[title|]|ex] w2];
    simpl in F2; cbn [snd emit]; try (apply Hkeep; cbn; congruence).
  destruct (truthy_str title); cbn [snd emit];
    try (apply Hkeep; cbn; congruence).
  rewrite F2, F1. cbn. apply wf_set.
  unfold registry in Hwf. rewrite Hreg in Hwf. exact Hwf.
Qed.

(** * Further properties *)

(** ** The post-processing of the title *)

Lemma lstrip_head (s : str) :
  match lstrip s with c :: _ => isspace c = false | [] => True end.
Proof.
  induction s as [|c s IH]; simpl; [exact I|].
  destruct (isspace c) eqn:Hc; [exact IH | exact Hc].
Qed.

Lemma lstrip_app_nonspace (l : str) (c : char) :
  isspace c = false -> lstrip (l ++ [c]) = lstrip l ++ [c].
Proof.
  intros Hc. induction l as [|x l IH]; simpl.
  - rewrite Hc. reflexivity.
  - destruct (isspace x); [exact IH | reflexivity].
Qed.

Lemma rstrip_cons_nonspace (c : char) (t : str) :
  isspace c = false -> rstrip (c :: t) = c :: rstrip t.
Proof.
  intros Hc. unfold rstrip. simpl.
  rewrite (lstrip_app_nonspace _ _ Hc), rev_app_distr. reflexivity.
Qed.

Lemma strip_head (s : str) :
  match strip s with c :: _ => isspace c = false | [] => True end.
Proof.
  unfold strip. pose proof (lstrip_head s) as H.
  destruct (lstrip s) as [|c t]; [exact I|].
  rewrite (rstrip_cons_nonspace _ _ H). exact H.
Qed.

Lemma strip_last (s : str) :
  match rev (strip s) with c :: _ => isspace c = false | [] => True end.
Proof.
  unfold strip, rstrip. rewrite rev_involutive. apply lstrip_head.
Qed.

(** A string that neither begins nor ends with whitespace is trimmed. *)
Lemma strip_fixed (u : str) :
  match u with c :: _ => isspace c = false | [] => True end ->
  match rev u with c :: _ => isspace c = false | [] => True end ->
  strip u = u.
Proof.
  intros Hhd Hlast. unfold strip, rstrip.
  assert (Hl : lstrip u = u)
    by (destruct u as [|c u]; simpl; [|rewrite Hhd]; reflexivity).
  rewrite Hl.
  assert (Hr : lstrip (rev u) = rev u)
    by (destruct (rev u) as [|c r]; simpl; [|rewrite Hlast]; reflexivity).
  rewrite Hr. apply rev_involutive.
Qed.

Lemma In_lstrip (s : str) (x : char) : In x (lstrip s) -> In x s.
Proof.
  induction s as [|c s IH]; simpl; [tauto|].
  destruct (isspace c); simpl; auto.
Qed.

Lemma In_strip (s : str) (x : char) : In x (strip s) -> In x s.
Proof.
  unfold strip, rstrip. intros H.
  apply In_lstrip. apply in_rev. apply In_lstrip. apply in_rev. exact H.
Qed.

(** The only whitespace that the substitution leaves is the space. *)
Lemma re_sub_ws_from_spaces (s : str) :
  forall in_run c,
    In c (re_sub_ws_from in_run s) -> isspace c = true -> c = SPACE.
Proof.
  induction s as [|x s IH]; intros in_run c; simpl; [tauto|].
  destruct (isspace x) eqn:Hx.
  - destruct in_run; [apply IH|].
    intros [<- | H]; [reflexivity | eauto].
  - intros [<- | H] Hc; [congruence | eauto].
Qed.

(** The substitution keeps every character that is not whitespace. *)
Lemma In_re_sub_ws_from (s : str) :
  forall in_run c,
    In c (re_sub_ws_from in_run s) -> c = SPACE \/ In c s.
Proof.
  induction s as [|x s IH]; intros in_run c; simpl; [tauto|].
  destruct (isspace x).
  - destruct in_run.
    + intros H. destruct (IH _ _ H); auto.
    + intros [<- | H]; [auto|]. destruct (IH _ _ H); auto.
  - intros [<- | H]; [auto|]. destruct (IH _ _ H); auto.
Qed.

Lemma re_sub_ws_from_app_nonspace (l : str) (c : char) :
  isspace c = false ->
  forall in_run,
    re_sub_ws_from in_run (l ++ [c]) = re_sub_ws_from in_run l ++ [c].
Proof.
  intros Hc. induction l as [|x l IH]; intros in_run; simpl.
  - rewrite Hc. reflexivity.
  - destruct (isspace x); [destruct in_run|]; rewrite IH; reflexivity.
Qed.

(** Trimming, then collapsing, gives a trimmed string. *)
Lemma collapse_of_strip_trimmed (s : str) : trimmed (re_sub_ws (strip s)).
Proof.
  unfold trimmed. apply strip_fixed.
  - pose proof (strip_head s) as H. unfold re_sub_ws.
    destruct (strip s) as [|c t]; simpl; [exact I|]. rewrite H. exact H.
  - pose proof (strip_last s) as H.
    destruct (rev (strip s)) as [|c r] eqn:Hrev; simpl.
    + apply (f_equal (@rev char)) in Hrev. rewrite rev_involutive in Hrev.
      rewrite Hrev. exact I.
    + apply (f_equal (@rev char)) in Hrev. rewrite rev_involutive in Hrev.
      simpl in Hrev. rewrite Hrev. unfold re_sub_ws.
      rewrite (re_sub_ws_from_app_nonspace _ _ H), rev_app_distr. exact H.
Qed.

Lemma split_without_separator (sep : char) (s : str) :
  existsb (N.eqb sep) s = false -> split sep s = [s].
Proof.
  induction s as [|c s IH]; simpl; [reflexivity|].
  intros H. apply orb_false_iff in H as [Hc Hs].
  rewrite N.eqb_sym, Hc, (IH Hs). reflexivity.
Qed.

Lemma has_period_false_iff (s : str) :
  has_period s = false <-> ~ In PERIOD s.
Proof.
  unfold has_period. split.
  - intros H Hin.
    assert (existsb (N.eqb PERIOD) s = true)
      by (apply existsb_exists; exists PERIOD; split; [exact Hin | reflexivity]).
    congruence.
  - intros H. destruct (existsb (N.eqb PERIOD) s) eqn:He; [|reflexivity].
    apply existsb_exists in He as (x & Hx & Heq).
    apply N.eqb_eq in Heq. subst x. tauto.
Qed.

(** X1.  A title that comes back does not begin with whitespace, and its only
    whitespace characters are plain spaces: no tab or line break of the
    summary reaches the proposed file name. *)
Theorem title_whitespace_is_single_spaces (text : str) (summarizer : Pipeline)
    (w w' : World) (title : str) :
  get_title_using_ai text summarizer w = (Ok (Some title), w') ->
  (forall c, In c title -> isspace c = true -> c = SPACE)
  /\ match title with c :: _ => isspace c = false | [] => True end.
Proof.
  rewrite get_title_using_ai_run.
  destruct (summarizer _ _ _ _ _) as [[|d ds]|e]; try discriminate.
  destruct (Dict.get (lit "summary_text") d) as [summary|]; [|discriminate].
  intros H; injection H as <- _.
  destruct (split_first PERIOD (re_sub_ws (strip summary)))
    as (p & ps & rest & Hsplit & Heq & _ & _).
  rewrite Hsplit. cbn [hd]. split.
  - intros c Hc. apply (re_sub_ws_from_spaces (strip summary) false).
    fold (re_sub_ws (strip summary)). rewrite Heq. apply in_or_app. auto.
  - pose proof (strip_head summary) as Hhd. unfold re_sub_ws in Heq.
    destruct p as [|c p]; [exact I|].
    destruct (strip summary) as [|x t]; simpl in Heq; [discriminate|].
    rewrite Hhd in Heq. injection Heq as <- _. exact Hhd.
Qed.

Lemma title_whitespace_is_single_spaces_witness :
  (forall c, In c (lit "Annual report 2024") -> isspace c = true -> c = SPACE)
  /\ match lit "Annual report 2024" with
     | c :: _ => isspace c = false
     | [] => True
     end.
Proof.
  apply (title_whitespace_is_single_spaces (lit "Annual report") demo_summarizer
           empty_session
           (add_call (call_summarizer (lit "Annual report") 30 5 false)
              empty_session)).
  reflexivity.
Defined.

(** X2.  When the summary has no period, the title is the summary trimmed and
    with its whitespace runs collapsed, and it is itself trimmed. *)
Theorem title_of_summary_without_period (text summary : str)
    (summarizer : Pipeline) (w : World) :
  summarizes summarizer text summary ->
  has_period summary = false ->
  get_title_using_ai text summarizer w
  = (Ok (Some (re_sub_ws (strip summary))),
     add_call (call_summarizer (firstn 1024 text) 30 5 false) w)
  /\ trimmed (re_sub_ws (strip summary)).
Proof.
  intros Hsum Hper. split; [|apply collapse_of_strip_trimmed].
  rewrite get_title_using_ai_run.
  destruct (Hsum (rng w)) as (d & ds & -> & ->).
  rewrite split_without_separator; [reflexivity|].
  apply has_period_false_iff. apply has_period_false_iff in Hper.
  intros Hin. apply In_re_sub_ws_from in Hin as [Heq | Hin].
  - discriminate Heq.
  - apply Hper. apply In_strip. exact Hin.
Qed.

Lemma title_of_summary_without_period_witness :
  get_title_using_ai (lit "x")
    (fun _ _ _ _ _ => Ok [[(lit "summary_text", lit "  Tax   form 2023 ")]])
    empty_session
  = (Ok (Some (lit "Tax form 2023")),
     add_call (call_summarizer (lit "x") 30 5 false) empty_session)
  /\ trimmed (lit "Tax form 2023").
Proof.
  apply (title_of_summary_without_period (lit "x") (lit "  Tax   form 2023 ")
           (fun _ _ _ _ _ => Ok [[(lit "summary_text", lit "  Tax   form 2023 ")]])
           empty_session).
  - intros seed. do 2 eexists. split; reflexivity.
  - reflexivity.
Defined.

(** ** The engines, seen from the controller *)

Lemma extract_text_from_pdf_returns (env : Env) (pdf_file : UploadedFile)
    (w : World) :
  exists r w',
    extract_text_from_pdf env pdf_file w = (Ok r, w')
    /\ processed_files w' = processed_files w.
Proof.
  rewrite extract_text_from_pdf_run.
  destruct (PdfReader env (getvalue pdf_file)) as [reader|e];
    [|do 2 eexists; split; reflexivity].
  destruct (pages reader) as [[|p ps]|e];
    try (do 2 eexists; split; reflexivity).
  destruct (extract_text p); do 2 eexists; split; reflexivity.
Qed.

Lemma get_title_using_ai_returns (text : str) (summarizer : Pipeline)
    (w : World) :
  exists r w',
    get_title_using_ai text summarizer w = (Ok r, w')
    /\ processed_files w' = processed_files w.
Proof.
  rewrite get_title_using_ai_run.
  destruct (summarizer _ _ _ _ _) as [[|d ds]|e];
    try (do 2 eexists; split; reflexivity).
  destruct (Dict.get (lit "summary_text") d);
    do 2 eexists; split; reflexivity.
Qed.

(** X3.  The title generator always returns; it asks the summarizer once, for
    at most 1024 characters and without sampling; it touches neither the
    files nor the registry; and it reports an error exactly when it
    returns [None]. *)
Theorem get_title_using_ai_outcome (text : str) (summarizer : Pipeline)
    (w : World) :
  exists r w',
    get_title_using_ai text summarizer w = (Ok r, w')
    /\ files w' = files w
    /\ processed_files w' = processed_files w
    /\ (exists asked,
          calls w' = calls w ++ [call_summarizer asked 30 5 false]
          /\ asked = firstn 1024 text /\ List.length asked <= 1024)
    /\ match r with
       | Some _ => ui w' = ui w
       | None =>
           exists msg,
             ui w' = ui w ++ [st_error
                                (lit "Error using AI for title extraction: "
                                 ++ msg)]
       end.
Proof.
  rewrite get_title_using_ai_run.
  assert (Hlen : List.length (firstn 1024 text) <= 1024)
    by apply firstn_le_length.
  assert (Hasked : forall w0 : World,
             exists asked,
               calls w0 ++ [call_summarizer (firstn 1024 text) 30 5 false]
               = calls w0 ++ [call_summarizer asked 30 5 false]
               /\ asked = firstn 1024 text /\ List.length asked <= 1024)
    by (intros w0; exists (firstn 1024 text); auto).
  destruct (summarizer _ _ _ _ _) as [[|d ds]|e].
  - do 2 eexists. split; [reflexivity|]. repeat split; [apply Hasked|].
    eexists. reflexivity.
  - destruct (Dict.get (lit "summary_text") d).
    + do 2 eexists. split; [reflexivity|]. repeat split. apply Hasked.
    + do 2 eexists. split; [reflexivity|]. repeat split; [apply Hasked|].
      eexists. reflexivity.
  - do 2 eexists. split; [reflexivity|]. repeat split; [apply Hasked|].
    eexists. reflexivity.
Qed.

(** The same for a successful registration (the statement of
    [process_file_registers]) on the concrete environment. *)
Lemma process_file_registers_witness :
  process_file demo_env demo_summarizer report_pdf empty_session
  = (Ok tt,
     with_processed_files
       (Dict.set (name report_pdf)
          (mkEntry (getvalue report_pdf) (lit "Annual report 2024" ++ lit ".pdf")
             (name report_pdf))
          [])
       (add_call (call_summarizer (lit " Annual report 2024 ") 30 5 false)
          (add_call (call_PdfReader 1) empty_session))).
Proof.
  apply (process_file_registers demo_env demo_summarizer report_pdf
           empty_session (add_call (call_PdfReader 1) empty_session)
           (add_call (call_summarizer (lit " Annual report 2024 ") 30 5 false)
              (add_call (call_PdfReader 1) empty_session))
           [] (lit " Annual report 2024 ") (lit "Annual report 2024")).
  - reflexivity.
  - reflexivity.
  - reflexivity.
  - reflexivity.
  - discriminate.
Defined.

Lemma temp_file_unlinked_when_parsed_witness :
  PdfReader demo_env (getvalue blank_pdf)
  = Ok (mkReader (Ok [mkPage (Ok blank_text)]))
  /\ files (snd (extract_text_from_pdf demo_env blank_pdf listing_session))
     = files listing_session.
Proof.
  split; [reflexivity|].
  apply (temp_file_unlinked_when_parsed demo_env blank_pdf listing_session
           (mkReader (Ok [mkPage (Ok blank_text)]))).
  reflexivity.
Defined.

(** X6.  When the extractor gives no text for a file that is not registered,
    the controller shows its warning and goes on: the summarizer is not
    asked, and the only call of the pass is the one to the parser. *)
Theorem extraction_failure_skips_summarizer (env : Env) (summarizer : Pipeline)
    (pdf_file : UploadedFile) (w : World) (reg : Dict.t Entry) :
  processed_files w = Some reg ->
  Dict.contains (name pdf_file) reg = false ->
  fst (extract_text_from_pdf env pdf_file w) = Ok None ->
  process_file env summarizer pdf_file w
  = (Ok tt,
     add_ui (st_warning (lit "Could not extract text from " ++ name pdf_file))
       (snd (extract_text_from_pdf env pdf_file w)))
  /\ calls (snd (process_file env summarizer pdf_file w))
     = calls w ++ [call_PdfReader (fresh_path (files w))].
Proof.
  intros Hreg Hnew Hnone.
  assert (Hrun : process_file env summarizer pdf_file w
                 = (Ok tt,
                    add_ui (st_warning (lit "Could not extract text from "
                                        ++ name pdf_file))
                      (snd (extract_text_from_pdf env pdf_file w)))).
  { unfold process_file, bind, get_processed_files.
    rewrite Hreg, Hnew. cbn [negb].
    destruct (extract_text_from_pdf env pdf_file w) as [[[t|]|ex] w1];
      simpl in Hnone; try discriminate Hnone.
    reflexivity. }
  split; [exact Hrun|]. rewrite Hrun. cbn [snd calls add_ui].
  rewrite extract_text_from_pdf_run.
  destruct (PdfReader env (getvalue pdf_file)) as [reader|e]; [|reflexivity].
  destruct (pages reader) as [[|p ps]|e]; try reflexivity.
  destruct (extract_text p) as [t|e]; reflexivity.
Qed.

Lemma extraction_failure_skips_summarizer_witness :
  process_file demo_env demo_summarizer no_pages_pdf listing_session
  = (Ok tt,
     add_ui (st_warning (lit "Could not extract text from " ++ lit "nopages.pdf"))
       (snd (extract_text_from_pdf demo_env no_pages_pdf listing_session)))
  /\ calls (snd (process_file demo_env demo_summarizer no_pages_pdf
                   listing_session))
     = [call_PdfReader 1].
Proof.
  apply (extraction_failure_skips_summarizer demo_env demo_summarizer
           no_pages_pdf listing_session [(lit "scan0001.pdf", report_entry)]);
    reflexivity.
Defined.

(** X7.  A document without pages, or with a blank first page, is not an
    error for the extractor: the pass over such a file shows exactly one
    message, the controller's warning, and leaves no temporary file. *)
Theorem file_without_text_is_only_warned (env : Env) (summarizer : Pipeline)
    (pdf_file : UploadedFile) (w : World) (reg : Dict.t Entry) :
  processed_files w = Some reg ->
  Dict.contains (name pdf_file) reg = false ->
  no_text env (getvalue pdf_file) = true ->
  exists w',
    process_file env summarizer pdf_file w = (Ok tt, w')
    /\ ui w' = ui w ++ [st_warning (lit "Could not extract text from "
                                    ++ name pdf_file)]
    /\ files w' = files w
    /\ processed_files w' = Some reg.
Proof.
  intros Hreg Hnew Hno.
  assert (Hx : extract_text_from_pdf env pdf_file w
               = (Ok None, add_call (call_PdfReader (fresh_path (files w))) w)).
  { rewrite extract_text_from_pdf_run. unfold no_text in Hno.
    destruct (PdfReader env (getvalue pdf_file)) as [reader|e];
      [|discriminate Hno].
    destruct (pages reader) as [[|p ps]|e]; try discriminate Hno;
      [reflexivity|].
    destruct (extract_text p) as [t|e]; [|discriminate Hno].
    destruct (truthy_str (strip t)); [discriminate Hno | reflexivity]. }
  eexists. split.
  - unfold process_file, bind, get_processed_files.
    rewrite Hreg, Hnew. cbn [negb]. rewrite Hx. reflexivity.
  - cbn. auto.
Qed.

Lemma file_without_text_is_only_warned_witness :
  no_text demo_env (getvalue blank_pdf) = true
  /\ exists w',
      process_file demo_env demo_summarizer blank_pdf empty_session = (Ok tt, w')
      /\ ui w' = [st_warning (lit "Could not extract text from blank.pdf")]
      /\ files w' = []
      /\ processed_files w' = Some [].
Proof.
  split; [reflexivity|].
  apply (file_without_text_is_only_warned demo_env demo_summarizer blank_pdf
           empty_session []); reflexivity.
Defined.

(** ** The upload loop as a whole *)

Lemma get_set_eq (V : Type) (d : Dict.t V) (k : str) (v : V) :
  Dict.get k (Dict.set k v d) = Some v.
Proof.
  induction d as [|[k' v'] d IH]; simpl.
  - rewrite str_eqb_refl. reflexivity.
  - destruct (str_eqb k k') eqn:Hk; simpl; rewrite Hk; auto.
Qed.

Lemma contains_false_get (V : Type) (d : Dict.t V) (k : str) :
  Dict.contains k d = false <-> Dict.get k d = None.
Proof.
  unfold Dict.contains. destruct (Dict.get k d); split; congruence.
Qed.

(** What the three post-processing steps make of any summary. *)
Lemma post_processing_clean (summary : str) :
  let title := hd [] (split PERIOD (re_sub_ws (strip summary))) in
  adjacent_ws title = false /\ has_period title = false.
Proof.
  destruct (split_first PERIOD (re_sub_ws (strip summary)))
    as (p & ps & rest & Hsplit & Heq & Hp & _).
  rewrite Hsplit. cbn [hd]. split; [|exact Hp].
  apply adjacent_ws_prefix with (r := rest). rewrite <- Heq.
  apply re_sub_ws_no_adjacent.
Qed.

(** The pass over one file returns whenever the session has its
    registry, and leaves it a registry. *)
Lemma process_file_returns (env : Env) (summarizer : Pipeline)
    (pdf_file : UploadedFile) (w : World) :
  processed_files w <> None ->
  exists w',
    process_file env summarizer pdf_file w = (Ok tt, w')
    /\ processed_files w' <> None.
Proof.
  intros Hinit.
  destruct (processed_files w) as [reg|] eqn:Hreg; [|congruence].
  unfold process_file, bind, get_processed_files. rewrite Hreg.
  destruct (Dict.contains (name pdf_file) reg); cbn [negb].
  - exists w. split; [reflexivity | congruence].
  - destruct (extract_text_from_pdf_returns env pdf_file w)
      as (r & w1 & -> & F1).
    unfold if_truthy.
    assert (Hwarn : forall ev w0, processed_files w0 = Some reg ->
              exists w', emit ev w0 = (Ok tt, w') /\ processed_files w' <> None).
    { intros ev w0 H0. eexists. split; [reflexivity|]. cbn. congruence. }
    destruct r as [t|]; [|apply Hwarn; congruence].
    destruct (truthy_str t); [|apply Hwarn; congruence].
    destruct (get_title_using_ai_returns t summarizer w1)
      as (r2 & w2 & -> & F2).
    destruct r2 as [title|]; [|apply Hwarn; congruence].
    destruct (truthy_str title); [|apply Hwarn; congruence].
    rewrite F2, F1, Hreg. eexists. split; [reflexivity|]. cbn. discriminate.
Qed.

(** X8.  A file that cannot be read or titled does not abort the batch: on a
    session that has its registry, the upload loop runs to its end over
    any list of files. *)
Theorem upload_loop_never_aborts (env : Env) (summarizer : Pipeline)
    (uploaded_files : list UploadedFile) (w : World) :
  processed_files w <> None ->
  exists w',
    for_each uploaded_files (process_file env summarizer) w = (Ok tt, w')
    /\ processed_files w' <> None.
Proof.
  revert w. induction uploaded_files as [|f fs IH]; intros w Hinit.
  - exists w. split; [reflexivity | exact Hinit].
  - destruct (process_file_returns env summarizer f w Hinit)
      as (w1 & Hrun & Hinit1).
    destruct (IH w1 Hinit1) as (w' & Hloop & Hinit').
    exists w'. split; [|exact Hinit'].
    cbn [for_each]. unfold bind. rewrite Hrun. exact Hloop.
Qed.

Lemma upload_loop_never_aborts_witness :
  exists w',
    for_each [empty_pdf; blank_pdf; report_pdf; no_pages_pdf]
      (process_file demo_env failing_summarizer) empty_session = (Ok tt, w')
    /\ processed_files w' <> None.
Proof.
  apply (upload_loop_never_aborts demo_env failing_summarizer
           [empty_pdf; blank_pdf; report_pdf; no_pages_pdf] empty_session).
  discriminate.
Defined.

(** X9.  An entry that a pass creates holds the uploaded bytes under the name
    of the upload, and its proposed name is a title followed by [.pdf],
    the title being non-empty, without period and without two whitespace
    characters in a row. *)
Theorem new_entry_shape (env : Env) (summarizer : Pipeline)
    (pdf_file : UploadedFile) (w : World) (reg : Dict.t Entry) (e : Entry) :
  processed_files w = Some reg ->
  Dict.get (name pdf_file) reg = None ->
  Dict.get (name pdf_file)
    (registry (snd (process_file env summarizer pdf_file w))) = Some e ->
  content e = getvalue pdf_file
  /\ original_name e = name pdf_file
  /\ exists title,
       proposed_name e = title ++ lit ".pdf"
       /\ title <> []
       /\ has_period title = false
       /\ adjacent_ws title = false.
Proof.
  intros Hreg Hnew.
  assert (Hc : Dict.contains (name pdf_file) reg = false)
    by (apply contains_false_get; exact Hnew).
  unfold process_file, bind, get_processed_files, registry.
  rewrite Hreg, Hc. cbn [negb].
  destruct (extract_text_from_pdf_returns env pdf_file w)
    as (r & w1 & -> & F1).
  unfold if_truthy.
  assert (Hsame : forall ev w0, processed_files w0 = Some reg ->
            Dict.get (name pdf_file)
              match processed_files (snd (emit ev w0)) with
              | Some d => d
              | None => []
              end = Some e -> False).
  { intros ev w0 H0. cbn. rewrite H0, Hnew. discriminate. }
  assert (Hreg1 : processed_files w1 = Some reg) by congruence.
  destruct r as [t|]; [|intros H; exfalso; exact (Hsame _ w1 Hreg1 H)].
  destruct (truthy_str t); [|intros H; exfalso; exact (Hsame _ w1 Hreg1 H)].
  pose proof (get_title_using_ai_run t summarizer w1) as Hrun.
  destruct (get_title_using_ai_returns t summarizer w1)
    as (r2 & w2 & Ht & F2).
  rewrite Ht in *.
  assert (Hreg2 : processed_files w2 = Some reg) by congruence.
  destruct r2 as [title|]; [|intros H; exfalso; exact (Hsame _ w2 Hreg2 H)].
  destruct (truthy_str title) eqn:Htruthy;
    [|intros H; exfalso; exact (Hsame _ w2 Hreg2 H)].
  rewrite Hreg2. cbn. rewrite get_set_eq.
  intros H; injection H as <-. cbn. split; [reflexivity|].
  split; [reflexivity|]. exists title. split; [reflexivity|].
  split; [intros ->; discriminate Htruthy|].
  cbv zeta in Hrun.
  destruct (summarizer _ _ _ _ _) as [[|d ds]|ex]; try discriminate Hrun.
  destruct (Dict.get (lit "summary_text") d) as [summary|];
    [|discriminate Hrun].
  injection Hrun as Htitle _. rewrite Htitle.
  destruct (post_processing_clean summary) as [Hadj Hper]. auto.
Qed.

Lemma new_entry_shape_witness :
  content report_entry = getvalue report_pdf
  /\ original_name report_entry = name report_pdf
  /\ exists title,
       proposed_name report_entry = title ++ lit ".pdf"
       /\ title <> []
       /\ has_period title = false
       /\ adjacent_ws title = false.
Proof.
  apply (new_entry_shape demo_env demo_summarizer report_pdf empty_session []
           report_entry); reflexivity.
Defined.

(** ** Relations between the registry before and after

    A reflexive and transitive relation that holds across the two
    assignments of the script (a new key in the upload loop, a new
    proposed name in the rendering loop) holds across the whole script. *)

Section Respects.
Variable Q : option (Dict.t Entry) -> option (Dict.t Entry) -> Prop.
Hypothesis Q_refl : forall o, Q o o.
Hypothesis Q_trans : forall a b c, Q a b -> Q b c -> Q a c.

Lemma respects_frame (A : Type) (m : M A) :
  (forall w, processed_files (snd (m w)) = processed_files w) ->
  respects Q m.
Proof. intros H w. rewrite H. apply Q_refl. Qed.

Lemma respects_ret (A : Type) (a : A) : respects Q (ret a).
Proof. apply respects_frame. reflexivity. Qed.

Lemma respects_emit (ev : UiEvent) : respects Q (emit ev).
Proof. apply respects_frame. reflexivity. Qed.

Lemma respects_lift (A : Type) (r : result A) : respects Q (lift r).
Proof. apply respects_frame. reflexivity. Qed.

Lemma respects_get_processed_files : respects Q get_processed_files.
Proof.
  apply respects_frame. intros w. unfold get_processed_files.
  destruct (processed_files w) eqn:Hreg; cbn [snd]; exact Hreg.
Qed.

Lemma respects_getitem (V : Type) (k : str) (d : Dict.t V) :
  respects Q (getitem k d).
Proof.
  apply respects_frame. intros w. unfold getitem.
  destruct (Dict.get k d); reflexivity.
Qed.

Lemma respects_NamedTemporaryFile_write (data : bytes) :
  respects Q (NamedTemporaryFile_write data).
Proof. apply respects_frame. reflexivity. Qed.

Lemma respects_download_button (label file_name : str) (data : bytes)
    (mime : str) :
  respects Q (download_button label file_name data mime).
Proof.
  apply respects_frame. intros w. unfold download_button.
  destruct (existsb _ (ui w)); reflexivity.
Qed.

Lemma respects_bind (A B : Type) (m : M A) (k : A -> M B) :
  respects Q m -> (forall a, respects Q (k a)) -> respects Q (bind m k).
Proof.
  intros Hm Hk w. unfold bind. specialize (Hm w).
  destruct (m w) as [[a|e] w1]; cbn [snd] in *; [|exact Hm].
  apply Q_trans with (b := processed_files w1); [exact Hm | apply Hk].
Qed.

Lemma respects_try_except (A : Type) (body : M A) (handler : exn -> M A) :
  respects Q body -> (forall e, respects Q (handler e)) ->
  respects Q (try_except body handler).
Proof.
  intros Hb Hh w. unfold try_except. specialize (Hb w).
  destruct (body w) as [[a|e] w1]; cbn [snd] in *; [exact Hb|].
  apply Q_trans with (b := processed_files w1); [exact Hb | apply Hh].
Qed.

Lemma respects_for_each (A : Type) (xs : list A) (body : A -> M unit) :
  (forall x, respects Q (body x)) -> respects Q (for_each xs body).
Proof.
  intros Hbody. induction xs as [|x xs IH]; cbn [for_each].
  - apply respects_ret.
  - apply respects_bind; [apply Hbody | intros _; exact IH].
Qed.

Hypothesis Q_insert :
  forall reg k e,
    Dict.get k reg = None -> original_name e = k ->
    Q (Some reg) (Some (Dict.set k e reg)).

Lemma respects_process_file (env : Env) (summarizer : Pipeline)
    (pdf_file : UploadedFile) :
  respects Q (process_file env summarizer pdf_file).
Proof.
  intros w. unfold process_file, bind, get_processed_files.
  destruct (processed_files w) as [reg|] eqn:Hreg;
    [|cbn [snd]; rewrite Hreg; apply Q_refl].
  destruct (Dict.contains (name pdf_file) reg) eqn:Hc; cbn [negb];
    [cbn [snd ret]; rewrite Hreg; apply Q_refl|].
  destruct (extract_text_from_pdf_returns env pdf_file w)
    as (r & w1 & -> & F1).
  assert (Hreg1 : processed_files w1 = Some reg) by congruence.
  unfold if_truthy.
  assert (Hwarn : forall ev w0, processed_files w0 = Some reg ->
            Q (Some reg) (processed_files (snd (emit ev w0)))).
  { intros ev w0 H0. cbn. rewrite H0. apply Q_refl. }
  destruct r as [t|]; [|apply Hwarn; exact Hreg1].
  destruct (truthy_str t); [|apply Hwarn; exact Hreg1].
  destruct (get_title_using_ai_returns t summarizer w1)
    as (r2 & w2 & -> & F2).
  assert (Hreg2 : processed_files w2 = Some reg) by congruence.
  destruct r2 as [title|]; [|apply Hwarn; exact Hreg2].
  destruct (truthy_str title); [|apply Hwarn; exact Hreg2].
  rewrite Hreg2. cbn. apply Q_insert; [|reflexivity].
  apply contains_false_get. exact Hc.
Qed.

Lemma respects_upload_loop (env : Env) (summarizer : Pipeline)
    (uploaded_files : list UploadedFile) :
  respects Q (for_each uploaded_files (process_file env summarizer)).
Proof. apply respects_for_each. intros f. apply respects_process_file. Qed.

Hypothesis Q_rename :
  forall reg k e new_name,
    Dict.get k reg = Some e ->
    Q (Some reg)
      (Some (Dict.set k (mkEntry (content e) new_name (original_name e)) reg)).

Lemma respects_set_proposed_name (k new_name : str) :
  respects Q (set_proposed_name k new_name).
Proof.
  intros w. unfold set_proposed_name, bind, get_processed_files, getitem.
  destruct (processed_files w) as [reg|] eqn:Hreg;
    [|cbn [snd]; rewrite Hreg; apply Q_refl].
  destruct (Dict.get k reg) as [e|] eqn:Hget;
    [|cbn [snd raise]; rewrite Hreg; apply Q_refl].
  cbn. apply Q_rename. exact Hget.
Qed.

Lemma respects_render_row (env : Env) (k : str) :
  respects Q (render_row env k).
Proof.
  unfold render_row.
  repeat first
    [ apply respects_set_proposed_name
    | apply respects_emit
    | apply respects_get_processed_files
    | apply respects_getitem
    | apply respects_NamedTemporaryFile_write
    | apply respects_download_button
    | apply respects_bind; [|intros ?] ].
Qed.

Hypothesis Q_init : Q None (Some []).

Lemma respects_run (A : Type) (m : M A) :
  respects Q m -> respects_script Q (run m).
Proof.
  intros Hm w. unfold run. specialize (Hm w).
  destruct (m w) as [r w1]. exact Hm.
Qed.

Lemma respects_bind_script (A B : Type) (m : Script A) (k : A -> Script B) :
  respects_script Q m -> (forall a, respects_script Q (k a)) ->
  respects_script Q (bind_script m k).
Proof.
  intros Hm Hk w. unfold bind_script. specialize (Hm w).
  destruct (m w) as [[[a|e]|] w1]; cbn [snd] in *; try exact Hm.
  apply Q_trans with (b := processed_files w1); [exact Hm | apply Hk].
Qed.

Lemma respects_try_except_script (A : Type) (body : Script A)
    (handler : exn -> Script A) :
  respects_script Q body -> (forall e, respects_script Q (handler e)) ->
  respects_script Q (try_except_script body handler).
Proof.
  intros Hb Hh w. unfold try_except_script. specialize (Hb w).
  destruct (body w) as [[[a|e]|] w1]; cbn [snd] in *; try exact Hb.
  apply Q_trans with (b := processed_files w1); [exact Hb | apply Hh].
Qed.

(** The whole script.  Clearing the registry is the one step that is not
    an insertion or a renaming: either it does not happen, or the
    relation must hold across it. *)
Lemma respects_main (env : Env) :
  button env (lit "Clear All") = false
  \/ (forall reg, Q (Some reg) (Some [])) ->
  respects_script Q (main env).
Proof.
  intros Hclear. unfold main.
  apply respects_bind_script;
    [apply respects_run, respects_emit | intros _].
  apply respects_bind_script;
    [apply respects_run, respects_emit | intros _].
  apply respects_bind_script; [apply respects_run|intros _].
  { intros w. destruct (processed_files w) eqn:Hreg; cbn [snd].
    - rewrite Hreg. apply Q_refl.
    - cbn. exact Q_init. }
  apply respects_try_except_script.
  2:{ intros e.
      apply respects_bind_script;
        [apply respects_run, respects_emit
        | intros _; apply respects_run, respects_emit]. }
  apply respects_bind_script;
    [apply respects_run, respects_lift | intros summarizer].
  destruct (file_uploader env) as [|f fs];
    [apply respects_run, respects_ret|].
  apply respects_bind_script;
    [apply respects_run, respects_emit | intros _].
  apply respects_bind_script;
    [apply respects_run, respects_upload_loop | intros _].
  apply respects_bind_script;
    [apply respects_run, respects_get_processed_files | intros reg].
  destruct reg as [|kv reg]; [apply respects_run, respects_ret|].
  do 4 (apply respects_bind_script;
        [apply respects_run, respects_emit | intros _]).
  apply respects_bind_script;
    [apply respects_run, respects_for_each; intros k; apply respects_render_row
    | intros _].
  apply respects_bind_script.
  - destruct (button env (lit "Clear All")) eqn:Hb;
      [|apply respects_run, respects_ret].
    destruct Hclear as [Hno | Hclear]; [discriminate Hno|].
    apply respects_bind_script.
    + intros w. cbn.
      destruct (processed_files w); [apply Hclear | exact Q_init].
    + intros _ w. cbn. apply Q_refl.
  - intros _.
    apply respects_bind_script;
      [apply respects_run, respects_emit
      | intros _; apply respects_run, respects_emit].
Qed.
End Respects.

(** ** Invariants of the whole script *)

Lemma keyed_set (reg : Dict.t Entry) (k : str) (e : Entry) :
  keyed reg -> original_name e = k -> keyed (Dict.set k e reg).
Proof.
  intros Hkeyed He k' e' Hget.
  destruct (str_eqb k' k) eqn:Hk.
  - apply str_eqb_eq in Hk. subst k'. rewrite get_set_eq in Hget.
    congruence.
  - apply str_eqb_neq in Hk. rewrite (get_set_other _ _ _ _ _ Hk) in Hget.
    apply Hkeyed. exact Hget.
Qed.

Lemma registry_ok_empty : registry_ok [].
Proof. split; [constructor | intros k e H; discriminate H]. Qed.

(** X10.  The registry stays a dictionary whose entries sit under their own
    original name, across a whole run of the script: uploads, renaming by
    the user, clearing, and failures of any kind. *)
Theorem main_keeps_registry_ok (env : Env) (w : World) :
  registry_ok (registry w) ->
  registry_ok (registry (snd (main env w))).
Proof.
  apply (respects_main
           (fun o o' => registry_ok (reg_of o) -> registry_ok (reg_of o'))).
  - auto.
  - auto.
  - intros reg k e Hnone He [Hwf Hkeyed]. split.
    + apply wf_set. exact Hwf.
    + apply keyed_set; assumption.
  - intros reg k e new_name Hget [Hwf Hkeyed]. split.
    + apply wf_set. exact Hwf.
    + apply keyed_set; [exact Hkeyed|]. cbn. apply Hkeyed. exact Hget.
  - auto.
  - right. intros reg _. exact registry_ok_empty.
Qed.

Lemma main_keeps_registry_ok_witness :
  registry_ok (registry listing_session)
  /\ registry_ok (registry (snd (main demo_env listing_session))).
Proof.
  assert (Hok : registry_ok (registry listing_session)).
  { split.
    - constructor; [simpl; tauto | constructor].
    - intros k e. cbn [registry listing_session processed_files Dict.get].
      destruct (str_eqb k (lit "scan0001.pdf")) eqn:Hk; [|discriminate].
      apply str_eqb_eq in Hk. intros H; injection H as <-. symmetry. exact Hk. }
  split; [exact Hok|].
  apply (main_keeps_registry_ok demo_env listing_session Hok).
Defined.

Lemma entries_kept_refl (reg : Dict.t Entry) : entries_kept reg reg.
Proof. intros k e H. exists e. auto. Qed.

Lemma entries_kept_trans (a b c : Dict.t Entry) :
  entries_kept a b -> entries_kept b c -> entries_kept a c.
Proof.
  intros Hab Hbc k e H.
  destruct (Hab k e H) as (e1 & H1 & Hc1 & Ho1).
  destruct (Hbc k e1 H1) as (e2 & H2 & Hc2 & Ho2).
  exists e2. repeat split; congruence.
Qed.

(** X11.  Unless [Clear All] is clicked, a run of the script loses no entry and
    changes neither the content nor the original name of any: only
    proposed names move. *)
Theorem main_keeps_entries (env : Env) (w : World) :
  button env (lit "Clear All") = false ->
  entries_kept (registry w) (registry (snd (main env w))).
Proof.
  intros Hb.
  apply (respects_main (fun o o' => entries_kept (reg_of o) (reg_of o'))).
  - intros o. apply entries_kept_refl.
  - intros a b c. apply entries_kept_trans.
  - intros reg k e Hnone _ k' e' Hget. cbn [reg_of] in *. exists e'.
    rewrite get_set_other by congruence. auto.
  - intros reg k e new_name Hget k' e' Hget'. cbn [reg_of] in *.
    destruct (str_eqb k' k) eqn:Hk.
    + apply str_eqb_eq in Hk. subst k'. rewrite get_set_eq.
      eexists. split; [reflexivity|]. cbn. split; congruence.
    + apply str_eqb_neq in Hk. rewrite (get_set_other _ _ _ _ _ Hk).
      exists e'. auto.
  - apply entries_kept_refl.
  - left. exact Hb.
Qed.

Lemma main_keeps_entries_witness :
  entries_kept (registry listing_session)
    (registry (snd (main demo_env listing_session))).
Proof.
  apply (main_keeps_entries demo_env listing_session). reflexivity.
Defined.

(** X12.  The upload loop changes no entry that is already there, whatever the
    batch: a name that is taken keeps its entry, proposed name
    included. *)
Theorem upload_loop_keeps_entries (env : Env) (summarizer : Pipeline)
    (uploaded_files : list UploadedFile) (w : World) :
  entries_unchanged (registry w)
    (registry (snd (for_each uploaded_files (process_file env summarizer) w))).
Proof.
  apply (respects_upload_loop
           (fun o o' => entries_unchanged (reg_of o) (reg_of o'))).
  - intros o k e H. exact H.
  - intros a b c Hab Hbc k e H. apply Hbc. apply Hab. exact H.
  - intros reg k e Hnone _ k' e' Hget. cbn [reg_of] in *.
    rewrite get_set_other by congruence. exact Hget.
Qed.

(** ** Running the script step by step *)


(** Lines 78-79: the session gets an empty registry if it has none. *)
Lemma main_session_step (w : World) :
  (fun w => match processed_files w with
            | None => set_processed_files Dict.empty w
            | Some _ => (Ok tt, w)
            end) w
  = (Ok tt, with_session w).
Proof.
  unfold with_session. cbv beta.
  destruct (processed_files w); reflexivity.
Qed.

Lemma with_session_initialised (w : World) :
  processed_files (with_session w) <> None.
Proof.
  unfold with_session. destruct (processed_files w) eqn:H; cbn; congruence.
Qed.

Lemma bind_script_run_Ok (A B : Type) (m : M A) (k : A -> Script B)
    (w w' : World) (a : A) :
  m w = (Ok a, w') -> bind_script (run m) k w = k a w'.
Proof. intros H. unfold bind_script, run. rewrite H. reflexivity. Qed.

Lemma bind_script_emit (B : Type) (ev : UiEvent) (k : unit -> Script B)
    (w : World) :
  bind_script (run (emit ev)) k w = k tt (add_ui ev w).
Proof. reflexivity. Qed.

Lemma run_not_rerun (A : Type) (m : M A) (w w' : World) :
  run m w = (RerunException, w') -> False.
Proof. unfold run. destruct (m w). discriminate. Qed.

Lemma bind_script_rerun (A B : Type) (m : Script A) (k : A -> Script B)
    (w w' : World) :
  bind_script m k w = (RerunException, w') ->
  m w = (RerunException, w')
  \/ exists a w1, m w = (Normal (Ok a), w1) /\ k a w1 = (RerunException, w').
Proof.
  unfold bind_script. destruct (m w) as [[[a|e]|] w1]; intros H.
  - right. eauto.
  - discriminate H.
  - left. injection H as ->. reflexivity.
Qed.

(** A session without registry runs like one with an empty registry. *)
Lemma main_session (env : Env) (w : World) :
  main env w = main env (with_session w).
Proof.
  unfold main. rewrite !bind_script_emit.
  rewrite !(bind_script_run_Ok _ _ _ _ _ _ _ (main_session_step _)).
  f_equal. unfold with_session.
  cbn [processed_files add_ui with_processed_files].
  destruct (processed_files w) eqn:H; cbn; rewrite ?H; reflexivity.
Qed.

(** X13.  No [Exception] leaves the script.  A run either returns, or
    ends by the [RerunException] of [st.experimental_rerun()], which
    [except Exception] does not catch; the latter only after a click on
    [Clear All], and then with an empty registry.  Either way the session
    has its registry afterwards. *)
Theorem main_returns_or_reruns (env : Env) (w : World) :
  exists w',
    processed_files w' <> None
    /\ (main env w = (Normal (Ok tt), w')
        \/ (main env w = (RerunException, w')
            /\ button env (lit "Clear All") = true
            /\ processed_files w' = Some [])).
Proof.
  assert (Hinit : processed_files (snd (main env w)) <> None).
  { rewrite main_session.
    apply (respects_main (fun o o' => o <> None -> o' <> None));
      try congruence; auto.
    - right. congruence.
    - apply with_session_initialised. }
  destruct (main env w) as [c w'] eqn:Hmain. cbn [snd] in Hinit.
  exists w'. split; [exact Hinit|].
  unfold main in Hmain. rewrite !bind_script_emit in Hmain.
  rewrite (bind_script_run_Ok _ _ _ _ _ _ _ (main_session_step _)) in Hmain.
  unfold try_except_script in Hmain.
  match type of Hmain with
  | context [match ?body ?w0 with _ => _ end] =>
      destruct (body w0) as [[[[]|e]|] w1] eqn:Hbody
  end.
  - injection Hmain as <- <-. left. reflexivity.
  - cbn in Hmain. injection Hmain as <- <-. left. reflexivity.
  - injection Hmain as <- <-. right. split; [reflexivity|].
    apply bind_script_rerun in Hbody
      as [Hbody | (summarizer & w2 & _ & Hbody)];
      [apply run_not_rerun in Hbody; contradiction|].
    cbv beta zeta in Hbody.
    destruct (file_uploader env) as [|f fs];
      [apply run_not_rerun in Hbody; contradiction|].
    do 2 (apply bind_script_rerun in Hbody
            as [Hbody | (? & ? & _ & Hbody)];
          [apply run_not_rerun in Hbody; contradiction|]).
    apply bind_script_rerun in Hbody
      as [Hbody | (reg & w3 & _ & Hbody)];
      [apply run_not_rerun in Hbody; contradiction|].
    destruct reg as [|kv reg];
      [apply run_not_rerun in Hbody; contradiction|].
    do 5 (apply bind_script_rerun in Hbody
            as [Hbody | (? & ? & _ & Hbody)];
          [apply run_not_rerun in Hbody; contradiction|]).
    apply bind_script_rerun in Hbody as [Hbody | (? & ? & _ & Hbody)].
    + destruct (button env (lit "Clear All"));
        [|apply run_not_rerun in Hbody; contradiction].
      split; [reflexivity|].
      apply bind_script_rerun in Hbody
        as [Hbody | ([] & w4 & Hset & Hbody)];
        [apply run_not_rerun in Hbody; contradiction|].
      injection Hset as <-. injection Hbody as <-. reflexivity.
    + apply bind_script_rerun in Hbody
        as [Hbody | (? & ? & _ & Hbody)];
        apply run_not_rerun in Hbody; contradiction.
Qed.

(** X14.  The listing is rendered only while the uploader holds files.
    With an empty uploader the script shows its title and its introduction
    and nothing else, whatever the registry holds: no row, no download
    button, no call to an engine, no temporary file, and the registry is
    left as it is. *)
Theorem main_without_uploads (env : Env) (summarizer : Pipeline) (w : World) :
  load_model env = Ok summarizer ->
  file_uploader env = [] ->
  main env w
  = (Normal (Ok tt),
     add_ui (st_write (lit "Upload PDFs to automatically rename them based on their content using AI"))
       (add_ui (st_title ([128196%N] ++ lit " PDF Auto-Renamer"))
          (with_session w))).
Proof.
  intros Hload Hnone. rewrite main_session.
  pose proof (with_session_initialised w) as Hinit.
  set (w0 := with_session w) in *. clearbody w0.
  unfold main. rewrite Hload, Hnone. rewrite !bind_script_emit.
  rewrite (bind_script_run_Ok _ _ _ _ _ _ _ (main_session_step _)).
  unfold with_session. cbn [processed_files add_ui].
  destruct (processed_files w0) eqn:Hreg; [|congruence].
  reflexivity.
Qed.

Lemma main_without_uploads_witness :
  main no_upload_env listing_session
  = (Normal (Ok tt),
     add_ui (st_write (lit "Upload PDFs to automatically rename them based on their content using AI"))
       (add_ui (st_title ([128196%N] ++ lit " PDF Auto-Renamer"))
          (with_session listing_session)))
  /\ downloads (ui (snd (main no_upload_env listing_session))) = []
  /\ registry (snd (main no_upload_env listing_session))
     = [(lit "scan0001.pdf", report_entry)].
Proof.
  pose proof (main_without_uploads no_upload_env demo_summarizer listing_session
                eq_refl eq_refl) as H.
  split; [exact H|]. rewrite H. split; reflexivity.
Defined.

(** X15.  When the model cannot be loaded, the script shows the two
    top-level error messages, the first with the text of the exception,
    and does nothing else: no file is processed and the registry is left
    as it is. *)
Theorem main_when_model_fails (env : Env) (e : exn) (w : World) :
  load_model env = Raise e ->
  main env w
  = (Normal (Ok tt),
     add_ui (st_error (lit "Please refresh the page and try again"))
       (add_ui (st_error (lit "An error occurred: " ++ exn_msg e))
          (add_ui (st_write (lit "Upload PDFs to automatically rename them based on their content using AI"))
             (add_ui (st_title ([128196%N] ++ lit " PDF Auto-Renamer"))
                (with_session w))))).
Proof.
  intros Hload. rewrite main_session.
  pose proof (with_session_initialised w) as Hinit.
  set (w0 := with_session w) in *. clearbody w0.
  unfold main. rewrite Hload. rewrite !bind_script_emit.
  rewrite (bind_script_run_Ok _ _ _ _ _ _ _ (main_session_step _)).
  unfold with_session. cbn [processed_files add_ui].
  destruct (processed_files w0) eqn:Hreg; [|congruence].
  reflexivity.
Qed.

Lemma main_when_model_fails_witness :
  calls (snd (main no_model_env new_world)) = []
  /\ processed_files (snd (main no_model_env new_world)) = Some []
  /\ ui (snd (main no_model_env new_world))
     = [st_title ([128196%N] ++ lit " PDF Auto-Renamer");
        st_write (lit "Upload PDFs to automatically rename them based on their content using AI");
        st_error (lit "An error occurred: no network");
        st_error (lit "Please refresh the page and try again")].
Proof.
  rewrite (main_when_model_fails no_model_env (Exception (lit "no network"))
             new_world eq_refl).
  repeat split.
Defined.

(** ** The rendering loop as a whole *)

Lemma get_absent (V : Type) (d : Dict.t V) (k : str) :
  ~ In k (Dict.keys d) -> Dict.get k d = None.
Proof.
  intros H. destruct (Dict.get k d) as [v|] eqn:Hget; [|reflexivity].
  exfalso. apply H. apply (get_In_keys _ _ _ _ Hget).
Qed.

(** Two dictionaries with the same keys in the same order and the same
    values under them are the same dictionary. *)
Lemma dict_ext (V : Type) (d : Dict.t V) :
  forall d',
    Dict.wf d -> Dict.keys d' = Dict.keys d ->
    (forall k, In k (Dict.keys d) -> Dict.get k d' = Dict.get k d) ->
    d' = d.
Proof.
  induction d as [|[k v] d IH]; intros [|[k' v'] d'] Hwf Hkeys Hget;
    try discriminate Hkeys; [reflexivity|].
  cbn in Hkeys. injection Hkeys as -> Hkeys.
  inversion Hwf as [|? ? Hk Hwf']; subst.
  pose proof (Hget k (or_introl eq_refl)) as Hhead.
  cbn in Hhead. rewrite str_eqb_refl in Hhead. injection Hhead as ->.
  f_equal. apply IH; [exact Hwf' | exact Hkeys|].
  intros k0 Hk0.
  assert (Hne : str_eqb k0 k = false)
    by (apply str_eqb_neq; intros ->; exact (Hk Hk0)).
  specialize (Hget k0 (or_intror Hk0)). cbn in Hget.
  rewrite Hne in Hget. exact Hget.
Qed.

(** X16.  A rendering of the listing whose rows offer different file
    names, none of them on the page yet, writes for each row one more
    temporary file with the content of the entry, and removes none: the
    files of the pass pile up on those that were there.  No engine is
    called. *)
Theorem rendering_leaves_a_file_per_row (env : Env) (w : World)
    (reg : Dict.t Entry) :
  processed_files w = Some reg ->
  Dict.wf reg ->
  fresh_names env reg (Dict.keys reg) w ->
  exists w' new,
    for_each (Dict.keys reg) (render_row env) w = (Ok tt, w')
    /\ files w' = new ++ files w
    /\ List.length new = List.length reg
    /\ map snd new
       = rev (map (fun k => match Dict.get k reg with
                            | Some e => content e
                            | None => []
                            end) (Dict.keys reg))
    /\ calls w' = calls w.
Proof.
  intros Hreg Hwf Hfresh.
  destruct (render_rows_run env (Dict.keys reg) w reg Hreg Hwf)
    as (w' & reg' & evs & new & Hrun & _ & _ & _ & _ & _ & Hcalls & Hfiles
        & Hnew & _);
    [|exact Hfresh|].
  { intros k Hk. apply In_keys_get. exact Hk. }
  exists w', new. repeat split; try assumption.
  apply (f_equal (@List.length bytes)) in Hnew.
  rewrite length_map, length_rev, length_map in Hnew.
  unfold Dict.keys in Hnew. rewrite length_map in Hnew. exact Hnew.
Qed.

Lemma rendering_leaves_a_file_per_row_witness :
  exists w' new,
    for_each (Dict.keys [(lit "scan0001.pdf", report_entry)])
      (render_row demo_env) listing_session = (Ok tt, w')
    /\ files w' = new ++ files listing_session
    /\ List.length new = 1
    /\ map snd new = [pdf_bytes]
    /\ calls w' = calls listing_session.
Proof.
  apply (rendering_leaves_a_file_per_row demo_env listing_session
           [(lit "scan0001.pdf", report_entry)] eq_refl).
  - constructor; [simpl; tauto | constructor].
  - split.
    + constructor; [simpl; tauto | constructor].
    + intros k _ [].
Defined.

(** X17.  If the user leaves every proposed name as it is shown, and the
    proposed names are all different and not yet on the page, a rendering
    pass runs to its end and leaves the registry exactly as it was. *)
Theorem rendering_without_edit_keeps_registry (env : Env) (w : World)
    (reg : Dict.t Entry) :
  processed_files w = Some reg ->
  Dict.wf reg ->
  (forall k e, Dict.get k reg = Some e ->
               typed env k (proposed_name e) = proposed_name e) ->
  fresh_names env reg (Dict.keys reg) w ->
  exists w',
    for_each (Dict.keys reg) (render_row env) w = (Ok tt, w')
    /\ processed_files w' = Some reg.
Proof.
  intros Hreg Hwf Hidle Hfresh.
  destruct (render_rows_run env (Dict.keys reg) w reg Hreg Hwf)
    as (w' & reg' & evs & new & Hrun & Hreg' & _ & _ & Hin & _ & _ & _ & _
        & Hkeys);
    [|exact Hfresh|].
  { intros k Hk. apply In_keys_get. exact Hk. }
  exists w'. split; [exact Hrun|]. rewrite Hreg'. f_equal.
  apply dict_ext; [exact Hwf | exact Hkeys|].
  intros k Hk. destruct (In_keys_get _ _ _ Hk) as [e He].
  rewrite (Hin k e Hk He), He, (Hidle k e He).
  destruct e; reflexivity.
Qed.

Lemma rendering_without_edit_keeps_registry_witness :
  exists w',
    for_each (Dict.keys [(lit "scan0001.pdf", report_entry)])
      (render_row idle_env) listing_session = (Ok tt, w')
    /\ processed_files w' = Some [(lit "scan0001.pdf", report_entry)].
Proof.
  apply (rendering_without_edit_keeps_registry idle_env listing_session
           [(lit "scan0001.pdf", report_entry)] eq_refl).
  - constructor; [simpl; tauto | constructor].
  - intros k e _. reflexivity.
  - split.
    + constructor; [simpl; tauto | constructor].
    + intros k _ [].
Defined.

(** ** Clearing the registry *)






(** ** The download link helper *)

(** Linear arithmetic with division and remainder by constants. *)
Ltac divlia := zify; Z.to_euclidean_division_equations; lia.

(** Induction on a list of bytes, three at a time. *)
Lemma bytes_ind3 (P : bytes -> Prop) :
  P [] -> (forall a, P [a]) -> (forall a b, P [a; b]) ->
  (forall a b c rest, P rest -> P (a :: b :: c :: rest)) ->
  forall data, P data.
Proof.
  intros H0 H1 H2 H3 data.
  assert (H : P data /\ (forall a, P (a :: data))
              /\ (forall a b, P (a :: b :: data))).
  { induction data as [|x data (IH0 & IH1 & IH2)].
    - auto.
    - repeat split; auto. }
  apply H.
Qed.

Lemma b64_value_char (n : N) : (n < 64)%N -> b64_value (b64_char n) = Some n.
Proof.
  intros Hn. unfold b64_char, b64_value.
  destruct (N.ltb_spec n 26);
    [|destruct (N.ltb_spec n 52);
      [|destruct (N.ltb_spec n 62); [|destruct (N.eqb_spec n 62)]]];
    repeat match goal with
           | |- context [N.leb ?a ?b] => destruct (N.leb_spec a b)
           | |- context [N.eqb ?a ?b] => destruct (N.eqb_spec a b)
           end;
    cbn [andb]; try (f_equal; lia); try lia.
Qed.

Lemma b64_char_not_padding (n : N) : (n < 64)%N -> N.eqb (b64_char n) EQUALS = false.
Proof.
  intros Hn. apply N.eqb_neq. intros Heq.
  pose proof (b64_value_char n Hn) as H. rewrite Heq in H. discriminate H.
Qed.

Lemma sextets_of_bytes (a b c : N) :
  (a <= 255 -> b <= 255 -> c <= 255 ->
   a / 4 < 64 /\ (a mod 4) * 16 + b / 16 < 64 /\ (a mod 4) * 16 < 64
   /\ (b mod 16) * 4 + c / 64 < 64 /\ (b mod 16) * 4 < 64
   /\ c mod 64 < 64)%N.
Proof. intros. divlia. Qed.

Lemma first_byte_back (a b : N) :
  (b <= 255 -> (a / 4) * 4 + ((a mod 4) * 16 + b / 16) / 16 = a)%N.
Proof. intros. divlia. Qed.

Lemma first_byte_back_alone (a : N) :
  ((a / 4) * 4 + ((a mod 4) * 16) / 16 = a)%N.
Proof. divlia. Qed.

Lemma second_byte_back (a b c : N) :
  (b <= 255 -> c <= 255 ->
   (((a mod 4) * 16 + b / 16) mod 16) * 16 + ((b mod 16) * 4 + c / 64) / 4
   = b)%N.
Proof. intros. divlia. Qed.

Lemma second_byte_back_alone (a b : N) :
  (b <= 255 ->
   (((a mod 4) * 16 + b / 16) mod 16) * 16 + ((b mod 16) * 4) / 4 = b)%N.
Proof. intros. divlia. Qed.

Lemma third_byte_back (b c : N) :
  (c <= 255 -> (((b mod 16) * 4 + c / 64) mod 4) * 64 + c mod 64 = c)%N.
Proof. intros. divlia. Qed.

Lemma b64decode_b64encode (data : bytes) :
  b64decode (b64encode data) = Some data.
Proof.
  induction data as [|a|a b|a b c rest IH] using bytes_ind3.
  - reflexivity.
  - pose proof (Byte.to_N_bounded a) as Ha.
    destruct (sextets_of_bytes (Byte.to_N a) 0 0 Ha)
      as (H1 & _ & H2 & _); [lia | lia |].
    cbn [b64encode b64decode].
    rewrite (b64_value_char _ H1), (b64_value_char _ H2).
    cbn [N.eqb EQUALS Pos.eqb bytes_of].
    rewrite first_byte_back_alone, Byte.of_to_N. reflexivity.
  - pose proof (Byte.to_N_bounded a) as Ha.
    pose proof (Byte.to_N_bounded b) as Hb.
    destruct (sextets_of_bytes (Byte.to_N a) (Byte.to_N b) 0 Ha Hb)
      as (H1 & H2 & _ & _ & H3 & _); [lia|].
    cbn [b64encode b64decode].
    rewrite (b64_value_char _ H1), (b64_value_char _ H2),
      (b64_char_not_padding _ H3), (b64_value_char _ H3).
    cbn [N.eqb EQUALS Pos.eqb bytes_of].
    rewrite (first_byte_back _ _ Hb), (second_byte_back_alone _ _ Hb),
      !Byte.of_to_N.
    reflexivity.
  - pose proof (Byte.to_N_bounded a) as Ha.
    pose proof (Byte.to_N_bounded b) as Hb.
    pose proof (Byte.to_N_bounded c) as Hc.
    destruct (sextets_of_bytes (Byte.to_N a) (Byte.to_N b) (Byte.to_N c)
                Ha Hb Hc)
      as (H1 & H2 & _ & H3 & _ & H4).
    cbn [b64encode b64decode].
    rewrite (b64_value_char _ H1), (b64_value_char _ H2),
      (b64_char_not_padding _ H3), (b64_value_char _ H3),
      (b64_char_not_padding _ H4), (b64_value_char _ H4), IH.
    cbn [bytes_of].
    rewrite (first_byte_back _ _ Hb), (second_byte_back _ _ _ Hb Hc),
      (third_byte_back _ _ Hc), !Byte.of_to_N.
    reflexivity.
Qed.

Lemma b64_char_in_alphabet (n : N) :
  (n < 64)%N -> b64_alphabet (b64_char n) = true.
Proof.
  intros Hn. unfold b64_alphabet. rewrite (b64_value_char n Hn). reflexivity.
Qed.

Lemma b64encode_length_alphabet (data : bytes) :
  List.length (b64encode data) = 4 * ((List.length data + 2) / 3)
  /\ Forall (fun c => b64_alphabet c = true) (b64encode data).
Proof.
  induction data as [|a|a b|a b c rest [IHlen IHall]] using bytes_ind3.
  - split; [reflexivity | constructor].
  - pose proof (Byte.to_N_bounded a) as Ha.
    destruct (sextets_of_bytes (Byte.to_N a) 0 0 Ha)
      as (H1 & _ & H2 & _); [lia | lia |].
    split; [reflexivity|]. cbn [b64encode].
    repeat constructor; auto using b64_char_in_alphabet.
  - pose proof (Byte.to_N_bounded a) as Ha.
    pose proof (Byte.to_N_bounded b) as Hb.
    destruct (sextets_of_bytes (Byte.to_N a) (Byte.to_N b) 0 Ha Hb)
      as (H1 & H2 & _ & _ & H3 & _); [lia|].
    split; [reflexivity|]. cbn [b64encode].
    repeat constructor; auto using b64_char_in_alphabet.
  - pose proof (Byte.to_N_bounded a) as Ha.
    pose proof (Byte.to_N_bounded b) as Hb.
    pose proof (Byte.to_N_bounded c) as Hc.
    destruct (sextets_of_bytes (Byte.to_N a) (Byte.to_N b) (Byte.to_N c)
                Ha Hb Hc)
      as (H1 & H2 & _ & H3 & _ & H4).
    split.
    + cbn [b64encode List.length]. rewrite IHlen.
      replace (S (S (S (List.length rest))) + 2)
        with (List.length rest + 2 + 1 * 3) by lia.
      rewrite Nat.div_add by discriminate. lia.
    + cbn [b64encode].
      repeat (constructor; [apply b64_char_in_alphabet; assumption|]).
      exact IHall.
Qed.

Lemma b64encode_without_quote (data : bytes) : ~ In QUOTE (b64encode data).
Proof.
  destruct (b64encode_length_alphabet data) as [_ Hall].
  intros Hin. rewrite Forall_forall in Hall. specialize (Hall QUOTE Hin).
  discriminate Hall.
Qed.

(** X19.  The encoding loses nothing: read back, a Base64 text gives the bytes
    it was made of, so two files with different bytes never get the same
    text. *)
Theorem b64encode_round_trip (data : bytes) :
  b64decode (b64encode data) = Some data
  /\ (forall data', b64encode data = b64encode data' -> data = data').
Proof.
  split; [apply b64decode_b64encode|].
  intros data' Heq.
  pose proof (b64decode_b64encode data) as H.
  rewrite Heq, b64decode_b64encode in H.
  injection H as H. symmetry. exact H.
Qed.

(** X20.  The Base64 text of some bytes has four characters for every three
    bytes, the last group filled up, so its length is a multiple of
    four; and it holds only letters, digits, [+], [/] and [=], so no
    double quote that would end the [href] attribute. *)
Theorem b64encode_shape (data : bytes) :
  List.length (b64encode data) = 4 * ((List.length data + 2) / 3)
  /\ Nat.modulo (List.length (b64encode data)) 4 = 0
  /\ Forall (fun c => b64_alphabet c = true) (b64encode data)
  /\ ~ In QUOTE (b64encode data).
Proof.
  destruct (b64encode_length_alphabet data) as [Hlen Hall].
  split; [exact Hlen|]. split.
  - rewrite Hlen, Nat.mul_comm. apply Nat.Div0.mod_mul.
  - split; [exact Hall | apply b64encode_without_quote].
Qed.

(** What [os.path.basename] makes of a name, one character at a time. *)
Lemma basename_cons (x : char) (p : str) :
  basename (x :: p)
  = match rfind SLASH p with
    | Some _ => basename p
    | None => if N.eqb x SLASH then p else x :: p
    end.
Proof.
  unfold basename. cbn [rfind].
  destruct (rfind SLASH p) as [i|]; [reflexivity|].
  destruct (N.eqb x SLASH); reflexivity.
Qed.

Lemma rfind_None (c : char) (s : str) : rfind c s = None <-> ~ In c s.
Proof.
  induction s as [|x s IH]; cbn [rfind In]; [tauto|].
  destruct (rfind c s) as [i|].
  - split; [discriminate|]. intros H. exfalso. apply H. right.
    destruct (in_dec N.eq_dec c s) as [Hin|Hout]; [exact Hin|].
    apply IH in Hout. discriminate Hout.
  - destruct (N.eqb_spec x c) as [->|Hne].
    + split; [discriminate | tauto].
    + split; [|reflexivity]. intros _ [H | H]; [congruence|].
      apply IH in H; [exact H | reflexivity].
Qed.

(** X21.  The name offered for download has no slash: it is the part of the
    label after its last slash, and a label without slash is offered as
    it is. *)
Theorem basename_is_last_component (p : str) :
  ~ In SLASH (basename p)
  /\ (exists dir, p = dir ++ basename p)
  /\ (~ In SLASH p -> basename p = p).
Proof.
  induction p as [|x p (IHno & (dir & IHdir) & IHid)].
  - repeat split; [intros [] | exists []; reflexivity].
  - rewrite basename_cons.
    destruct (rfind SLASH p) as [i|] eqn:Hr.
    + split; [exact IHno|]. split.
      * exists (x :: dir). cbn. rewrite <- IHdir. reflexivity.
      * intros Hout. exfalso.
        assert (Hp : ~ In SLASH p) by (intros H; apply Hout; right; exact H).
        apply rfind_None in Hp. congruence.
    + apply rfind_None in Hr.
      destruct (N.eqb_spec x SLASH) as [->|Hne].
      * split; [exact Hr|]. split; [exists [SLASH]; reflexivity|].
        intros Hout. exfalso. apply Hout. left. reflexivity.
      * split; [intros [H | H]; [congruence | tauto]|].
        split; [exists []; reflexivity | reflexivity].
Qed.

(** X22.  For a file that exists, the helper returns an anchor whose [href] is
    a [data:] address closed by the first double quote after its
    beginning, and the Base64 text in it reads back as the bytes of the
    file; the files are left as they are. *)
Theorem download_link_carries_the_file (bin_file : path) (file_label : str)
    (w : World) (data : bytes) :
  read_file bin_file (files w) = Some data ->
  exists payload tail,
    get_binary_file_downloader_html bin_file file_label w
    = (Ok (lit "<a href=" ++ [QUOTE]
           ++ lit "data:application/octet-stream;base64,"
           ++ payload ++ QUOTE :: tail), w)
    /\ ~ In QUOTE payload
    /\ b64decode payload = Some data.
Proof.
  intros Hread. exists (b64encode data). eexists. split; [|split].
  - unfold get_binary_file_downloader_html, bind, open_rb_read.
    rewrite Hread. unfold download_anchor. cbn [ret app]. reflexivity.
  - apply b64encode_without_quote.
  - apply b64decode_b64encode.
Qed.

Lemma download_link_carries_the_file_witness :
  exists payload tail,
    get_binary_file_downloader_html 1%N (lit "/tmp/report.pdf")
      (mkWorld [(1%N, pdf_bytes)] None [] [] 0%N)
    = (Ok (lit "<a href=" ++ [QUOTE]
           ++ lit "data:application/octet-stream;base64,"
           ++ payload ++ QUOTE :: tail),
       mkWorld [(1%N, pdf_bytes)] None [] [] 0%N)
    /\ ~ In QUOTE payload
    /\ b64decode payload = Some pdf_bytes.
Proof.
  apply (download_link_carries_the_file 1%N (lit "/tmp/report.pdf")
           (mkWorld [(1%N, pdf_bytes)] None [] [] 0%N) pdf_bytes).
  reflexivity.
Defined.

(** X23.  Nothing in the helper guards the opening of the file: for a file that
    does not exist it raises, out of the function, and builds no link. *)
Theorem download_link_of_missing_file_raises (bin_file : path)
    (file_label : str) (w : World) :
  read_file bin_file (files w) = None ->
  exists e,
    get_binary_file_downloader_html bin_file file_label w = (Raise e, w).
Proof.
  intros Hread. eexists.
  unfold get_binary_file_downloader_html, bind, open_rb_read.
  rewrite Hread. reflexivity.
Qed.

Lemma download_link_of_missing_file_raises_witness :
  exists e,
    get_binary_file_downloader_html 7%N (lit "report.pdf") empty_session
    = (Raise e, empty_session).
Proof.
  apply (download_link_of_missing_file_raises 7%N (lit "report.pdf")
           empty_session).
  reflexivity.
Defined.

Lemma basename_is_last_component_witness :
  ~ In SLASH (basename (lit "/tmp/out/report.pdf"))
  /\ basename (lit "/tmp/out/report.pdf") = lit "report.pdf"
  /\ basename (lit "report.pdf") = lit "report.pdf".
Proof.
  split; [apply (basename_is_last_component (lit "/tmp/out/report.pdf"))|].
  split; [reflexivity|].
  apply (basename_is_last_component (lit "report.pdf")).
  cbn. intros H.
  repeat (destruct H as [H | H]; [discriminate H|]). exact H.
Defined.
